(** * Project-quota driver of pouch (storage/quota/prjquota.go)

    A shallow embedding of [PrjQuotaDriver] and its methods, together with
    the properties of the driver that the specification states.

    Conventions of the embedding.
    - [uint32] and [uint64] values are numbers in [N]; where the Go code
      does arithmetic on them the wrap-around is written out ([wrap32],
      [wrap64]).
    - [map[uint32]struct{}] is a [gset N], [map[uint64]string] a
      [gmap N string].
    - A Go [error] value is an [option error]: [None] is [nil].
    - Everything outside the process (the kernel's mount table, stat, the
      programs started through [exec.Run], the package-level device-limit
      table kept by the sibling file of the package) is a state of an
      abstract type [World]; the functions of the package that are not part
      of prjquota.go are fields of an environment record [Env].
    - Every [exec.Run] call of prjquota.go is appended to a log, so that
      "which tools were invoked" is a statement about that log. A log
      entry is the program name followed by its arguments; the timeout,
      0 at every call site, is left out.
    - The mutex of the driver is not modelled: methods run one after the
      other, which is what the lock enforces for the state they share. *)

From Stdlib Require Import NArith ZArith Ascii String DecimalString.
From Stdlib Require Import DecimalPos DecimalN.
From stdpp Require Import gmap strings list.

Local Open Scope string_scope.

(** ** The Go library functions the driver calls *)

Module Go.

(** [len(s)] of a Go string: its number of bytes. *)
Definition len (s : string) : nat := String.length s.

Definition wrap32 (n : N) : N := (n mod 2 ^ 32)%N.
Definition wrap64 (n : N) : N := (n mod 2 ^ 64)%N.

(** [strings.Split(s, sep)] for a one-byte separator, which is what every
    call site of the driver passes (a space, a newline, a comma). The
    result is never empty: [Split "" sep] is the list holding [""]. *)
Fixpoint Split (s : string) (sep : ascii) : list string :=
  match s with
  | EmptyString => [EmptyString]
  | String c s' =>
      if Ascii.eqb c sep then EmptyString :: Split s' sep
      else match Split s' sep with
           | [] => [String c EmptyString]
           | p :: ps => String c p :: ps
           end
  end.

Fixpoint HasPrefix (s prefix : string) : bool :=
  match prefix, s with
  | EmptyString, _ => true
  | String a p, String b s' => Ascii.eqb a b && HasPrefix s' p
  | String _ _, EmptyString => false
  end.

(** [strings.Contains(s, substr)]. *)
Fixpoint Contains (s substr : string) : bool :=
  HasPrefix s substr
  || match s with
     | EmptyString => false
     | String _ s' => Contains s' substr
     end.

(** [strconv.FormatUint(n, 10)]. *)
Definition FormatUint (n : N) : string :=
  NilZero.string_of_uint (N.to_uint n).

Definition digit_of (c : ascii) : option N :=
  let n := N_of_ascii c in
  if ((48 <=? n) && (n <=? 57))%N then Some (n - 48)%N else None.

Fixpoint parse_digits (s : string) (acc : N) : option N :=
  match s with
  | EmptyString => Some acc
  | String c s' =>
      match digit_of c with
      | Some d => parse_digits s' (acc * 10 + d)%N
      | None => None
      end
  end.

(** [strconv.Atoi(s)] on a 64-bit platform: an optional sign and at least
    one decimal digit. The boolean is [true] when Go returns a non-nil
    error; the value is then 0 (syntax) or the nearest bound (range). *)
Definition Atoi (s : string) : Z * bool :=
  let '(neg, body) :=
    match s with
    | String "+" r => (false, r)
    | String "-" r => (true, r)
    | _ => (false, s)
    end in
  match body with
  | EmptyString => (0%Z, true)
  | _ =>
      match parse_digits body 0 with
      | None => (0%Z, true)
      | Some n =>
          if neg then
            if (n <=? 2 ^ 63)%N then ((- Z.of_N n)%Z, false)
            else ((- 2 ^ 63)%Z, true)
          else
            if (n <? 2 ^ 63)%N then (Z.of_N n, false)
            else ((2 ^ 63 - 1)%Z, true)
      end
  end.

(** The conversion [uint32(i)] of an [int]. *)
Definition uint32_of_int (i : Z) : N := Z.to_N (i mod 2 ^ 32)%Z.

Definition Join (parts : list string) (sep : string) : string :=
  match parts with
  | [] => EmptyString
  | p :: ps => fold_left (fun acc q => acc ++ sep ++ q) ps p
  end.

Definition clean_step (rooted : bool) (stack : list string) (elem : string)
  : list string :=
  if decide (elem = "" ∨ elem = ".") then stack
  else if decide (elem = "..") then
    match stack with
    | top :: rest =>
        if decide (top = "..") then (if rooted then stack else ".." :: stack)
        else rest
    | [] => if rooted then [] else [".."]
    end
  else elem :: stack.

(** [path.Clean(p)], by path elements: empty and [.] elements vanish, a
    [..] element removes the element before it, or stays when there is
    none and the path is not rooted. *)
Definition Clean (p : string) : string :=
  let rooted := HasPrefix p "/" in
  let stack := fold_left (clean_step rooted) (Split p "/") [] in
  let out := (if rooted then "/" else "") ++ Join (rev stack) "/" in
  if decide (out = "") then "." else out.

(** The first component of [path.Split(p)]: [p] up to and including its
    final slash, empty when [p] has no slash. *)
Fixpoint dirpart (p : string) : string :=
  match p with
  | EmptyString => EmptyString
  | String c r =>
      let d := dirpart r in
      if decide (d = "") then
        (if Ascii.eqb c "/" then "/" else "")
      else String c d
  end.

(** [path.Dir(p)]. *)
Definition Dir (p : string) : string := Clean (dirpart p).

End Go.

(** ** Errors *)

(** An error is a message, or an error wrapped with a context message
    ([errors.Wrapf]). The context is the format string of the call site;
    the rendered arguments are left out, no property depends on them. *)
Inductive error : Type :=
  | Errorf (msg : string)
  | Wrapped (cause : error) (msg : string).

(** [errors.Wrapf(err, ...)] returns [nil] when [err] is [nil]. *)
Definition Wrapf (err : option error) (msg : string) : option error :=
  match err with
  | None => None
  | Some e => Some (Wrapped e msg)
  end.

(** ** The environment of the driver *)

(** What [exec.Run] returns: exit status, captured output, error. *)
Record RunResult : Type := mkRunResult {
  exit : Z;
  stdout : string;
  stderr : string;
  run_err : option error;
}.

(** Modelled from the spec: the three filesystem kinds of section 3
    ("one of {ext3, ext4, xfs}"); the constants [xfsFS], [ext3FS] and
    [ext4FS] are declared in the sibling file of the package. *)
Definition xfsFS : string := "xfs".
Definition ext3FS : string := "ext3".
Definition ext4FS : string := "ext4".

(** The functions and constants that prjquota.go uses and that live in
    other files: their results are taken as they come. Functions that
    return [(value, error)] in Go return the pair here as well, because
    [CheckMountpoint] uses the value of [getDevID] and drops its error. *)
Record Env (World : Type) : Type := mkEnv {
  QuotaMinID : N;
  procMountFile : string;
  getDevID : string -> World -> N * option error;
  setDevLimit : string -> N -> World -> (N * option error) * World;
  checkDevLimit : string -> N -> World -> option error;
  getMountpointFstype : string -> World -> string * string * option error;
  loadQuotaIDs : string -> World -> (gset N * N * option error) * World;
  ReadFile : string -> World -> string * option error;
  exec_Run : list string -> World -> RunResult * World;
  ToKilobytes : string -> N * option error;
}.

Arguments QuotaMinID {World} _.
Arguments procMountFile {World} _.
Arguments getDevID {World} _ _ _.
Arguments setDevLimit {World} _ _ _ _.
Arguments checkDevLimit {World} _ _ _ _.
Arguments getMountpointFstype {World} _ _ _.
Arguments loadQuotaIDs {World} _ _ _.
Arguments ReadFile {World} _ _ _.
Arguments exec_Run {World} _ _ _.
Arguments ToKilobytes {World} _ _.

(** ** The driver state *)

Record PrjQuotaDriver : Type := mkDriver {
  quotaIDs : gset N;
  mountPoints : gmap N string;
  lastID : N;
}.

(** The state a method runs in: the world, the driver, and the log of the
    commands started through [exec.Run], oldest first. *)
Record St (World : Type) : Type := mkSt {
  world : World;
  driver : PrjQuotaDriver;
  trace : list (list string);
}.

Arguments mkSt {World} _ _ _.
Arguments world {World} _.
Arguments driver {World} _.
Arguments trace {World} _.

(** ** The methods of the driver *)

Section Methods.

Context {World : Type}.
Variable E : Env World.

Definition set_world (s : St World) (w : World) : St World :=
  mkSt w (driver s) (trace s).

Definition set_driver (s : St World) (d : PrjQuotaDriver) : St World :=
  mkSt (world s) d (trace s).

(** [exec.Run(0, name, args...)]: the command is logged, the world
    answers and moves on. *)
Definition Run (cmd : list string) (s : St World) : RunResult * St World :=
  let '(r, w) := exec_Run E cmd (world s) in
  (r, mkSt w (driver s) (trace s ++ [cmd])).

(** *** CheckMountpoint *)

(** The inner loop over the options of an entry. *)
Definition has_prjquota (options : string) : bool :=
  existsb (String.eqb "prjquota") (Go.Split options ",").

(** One round of the loop over the lines of the mount table; the
    accumulator holds [mountPoint], [enableQuota] and [fsType]. *)
Definition check_line (devID : N) (w : World)
    (acc : string * bool * string) (line : string) : string * bool * string :=
  let '(mountPoint, enableQuota, fsType) := acc in
  let parts := Go.Split line " " in
  if negb (length parts =? 6)%nat then acc
  else
    let p1 := nth 1 parts "" in
    let p2 := nth 2 parts "" in
    let p3 := nth 3 parts "" in
    if negb (String.eqb p2 xfsFS) && negb (String.eqb p2 ext3FS)
       && negb (String.eqb p2 ext4FS) then acc
    else
      let '(devID2, _) := getDevID E p1 w in
      if negb (devID =? devID2)%N then acc
      else if negb (String.eqb mountPoint "")
              && (Go.len mountPoint <? Go.len p1)%nat then acc
      else (p1, enableQuota || has_prjquota p3, p2).

Definition CheckMountpoint (devID : N) (w : World) : string * bool * string :=
  let '(output, err) := ReadFile E (procMountFile E) w in
  match err with
  | Some _ => ("", false, "")
  | None => fold_left (check_line devID w) (Go.Split output "010") ("", false, "")
  end.

(** *** EnforceQuota *)

Definition EnforceQuota (dir : string) (s : St World)
  : (string * option error) * St World :=
  let '(devID, err) := getDevID E dir (world s) in
  match err with
  | Some _ =>
      (("", Wrapf err "failed to get device id for directory: (%s)"), s)
  | None =>
  let '((_, err), w1) := setDevLimit E dir devID (world s) in
  let s1 := set_world s w1 in
  match err with
  | Some _ =>
      (("", Wrapf err "failed to set device limit, dir: (%s), devID: (%d)"), s1)
  | None =>
  match mountPoints (driver s1) !! devID with
  | Some mp => ((mp, None), s1)
  | None =>
  let '(mountPoint, hasQuota, _) := CheckMountpoint devID (world s1) in
  if (Go.len mountPoint =? 0)%nat then
    ((mountPoint,
      Some (Errorf "mountPoint not found for the device on which dir (%s) lies")),
     s1)
  else
  let '(rerr, s2) :=
    if negb hasQuota then
      let '(r, s2) := Run ["mount"; "-o"; "remount,prjquota"; mountPoint] s1 in
      (run_err r, s2)
    else (None, s1) in
  match rerr with
  | Some _ =>
      (("", Wrapf rerr "failed to remount prjquota, mountpoint: (%s), stdout: (%s), stderr: (%s), exit: (%d)"),
       s2)
  | None =>
  let '(_, fstype, err) := getMountpointFstype E dir (world s2) in
  match err with
  | Some _ =>
      (("", Wrapf err "failed to get filesystem type, dir: (%s), err: (%v)"), s2)
  | None =>
  let '(mountPoint, err, s3) :=
    if negb (String.eqb fstype xfsFS) then
      let '(r, s3) := Run ["quotaon"; "-P"; mountPoint] s2 in
      match run_err r with
      | Some _ =>
          if Go.Contains (stderr r) " File exists" then (mountPoint, None, s3)
          else
            (* the Go code wraps [err], not [err2]: [err] is the error of
               getMountpointFstype, nil on this path *)
            ("",
             Wrapf err "failed to quota on, mountpoint: (%s), stdout: (%s), stderr: (%s), exit: (%d)",
             s3)
      | None => (mountPoint, err, s3)
      end
    else (mountPoint, err, s2) in
  let d := driver s3 in
  ((mountPoint, err),
   set_driver s3
     (mkDriver (quotaIDs d) (<[devID := mountPoint]> (mountPoints d)) (lastID d)))
  end end end end end.

(** *** GetQuotaIDInFileAttr *)

(** The loop over the lines of the lsattr output: the first line whose
    third field is [dir] decides. *)
Fixpoint find_attr (dir : string) (lines : list string) : N :=
  match lines with
  | [] => 0%N
  | line :: rest =>
      let parts := Go.Split line " " in
      if (2 <? length parts)%nat && String.eqb (nth 2 parts "") dir then
        Go.uint32_of_int (fst (Go.Atoi (nth 0 parts "")))
      else find_attr dir rest
  end.

Definition GetQuotaIDInFileAttr (dir : string) (s : St World) : N * St World :=
  let parent := Go.Dir dir in
  let '(r, s1) := Run ["lsattr"; "-p"; parent] s in
  match run_err r with
  | Some _ => (0%N, s1)
  | None => (find_attr dir (Go.Split (stdout r) "010"), s1)
  end.

(** *** GetNextQuotaID *)

(** One round of the [for] loop, from the value [id] holds when the round
    starts: the floor is applied, then [id++] on a uint32. The result is
    the identifier the round tests. *)
Definition next_candidate (id : N) : N :=
  let id := if (id <? QuotaMinID E)%N then QuotaMinID E else id in
  Go.wrap32 (id + 1).

(** The [for] loop of GetNextQuotaID. [None] means that none of the first
    [fuel] rounds leaves the loop. *)
Fixpoint scan (fuel : nat) (ids : gset N) (id : N) : option N :=
  match fuel with
  | O => None
  | S fuel' =>
      let id := next_candidate id in
      if decide (id ∈ ids) then scan fuel' ids id else Some id
  end.

(** The first statement of GetNextQuotaID: the set and the marker are
    loaded when the marker is 0. The result is what the three assignments
    leave in [quota.quotaIDs], [quota.lastID] and [err], and the world. *)
Definition lazy_load (s : St World) : gset N * N * option error * World :=
  let d := driver s in
  if (lastID d =? 0)%N then
    let '((ids, last, err), w) := loadQuotaIDs E "-Pan" (world s) in
    (ids, last, err, w)
  else (quotaIDs d, lastID d, None, world s).

(** The loop is given one round more than the set has members: when that
    is not enough the candidates have come round in a circle inside the
    set and the Go loop never ends ([scan_None_forever] below). The
    result [None] of the method stands for that. *)
Definition GetNextQuotaID (s : St World)
  : option ((N * option error) * St World) :=
  let d := driver s in
  let '(ids, last, err, w) := lazy_load s in
  let s1 := mkSt w (mkDriver ids (mountPoints d) last) (trace s) in
  match err with
  | Some _ => Some ((0%N, Wrapf err "failed to load quota list"), s1)
  | None =>
      match scan (S (size ids)) ids last with
      | None => None
      | Some id =>
          Some ((id, None),
                set_driver s1 (mkDriver ({[id]} ∪ ids) (mountPoints d) id))
      end
  end.

(** *** SetSubtree *)

(** The second half of SetSubtree, once [id] is determined. *)
Definition bind_subtree (dir : string) (id : N) (s : St World)
  : (N * option error) * St World :=
  let '(_, fstype, err) := getMountpointFstype E dir (world s) in
  match err with
  | Some _ => ((0%N, Wrapf err "failed to get fs type, dir: (%s), err: (%v)"), s)
  | None =>
      let strid := Go.FormatUint id in
      if negb (String.eqb fstype xfsFS) then
        let '(r, s1) := Run ["chattr"; "-p"; strid; "+P"; dir] s in
        ((id, Wrapf (run_err r) "failed to chattr, dir: (%s), quota id: (%s), stdout: (%s), stderr: (%s), exit: (%d)"),
         s1)
      else
        let cmd := "project -s -p " ++ dir ++ " " ++ strid in
        let '(r, s1) := Run ["xfs_quota"; "-x"; "-c"; cmd] s in
        ((id, Wrapf (run_err r) "failed to xfs_quota, dir: (%s), quota id: (%s), stdout: (%s), stderr: (%s), exit: (%d)"),
         s1)
  end.

Definition SetSubtree (dir : string) (qid : N) (s : St World)
  : option ((N * option error) * St World) :=
  if (qid =? 0)%N then
    let '(id, s1) := GetQuotaIDInFileAttr dir s in
    if (0 <? id)%N then Some ((id, None), s1)
    else
      match GetNextQuotaID s1 with
      | None => None
      | Some ((id, err), s2) =>
          match err with
          | Some _ =>
              Some ((0%N, Wrapf err "failed to get file: (%s) quota id"), s2)
          | None => Some (bind_subtree dir id s2)
          end
      end
  else Some (bind_subtree dir qid s).

(** *** setQuota *)

Definition setQuota (quotaID blockLimit : N) (mountPoint : string)
    (s : St World) : option error * St World :=
  let quotaIDStr := Go.FormatUint quotaID in
  let blockLimitStr := Go.FormatUint blockLimit in
  let '(_, fstype, err) := getMountpointFstype E mountPoint (world s) in
  match err with
  | Some _ => (Wrapf err "failed to get fs type, dir: (%s), err: (%v)", s)
  | None =>
      if negb (String.eqb fstype xfsFS) then
        let '(r, s1) :=
          Run ["setquota"; "-P"; quotaIDStr; "0"; blockLimitStr; "0"; "0";
               mountPoint] s in
        (Wrapf (run_err r) "failed to set quota, mountpoint: (%s), quota id: (%d), quota: (%d kbytes), stdout: (%s), stderr: (%s), exit: (%d)",
         s1)
      else
        let cmd := "limit -p bhard=" ++ blockLimitStr ++ "k " ++ quotaIDStr in
        let '(r, s1) := Run ["xfs_quota"; "-x"; "-c"; cmd; mountPoint] s in
        (Wrapf (run_err r) "failed to set quota, mountpoint: (%s), quota id: (%d), quota: (%d kbytes), stdout: (%s), stderr: (%s), exit: (%d)",
         s1)
  end.

(** *** SetDiskQuota *)

Definition SetDiskQuota (dir size : string) (quotaID : N) (s : St World)
  : option (option error * St World) :=
  let '((mountPoint, err), s1) := EnforceQuota dir s in
  match err with
  | Some _ => Some (Wrapf err "failed to enforce quota, dir: (%s)", s1)
  | None =>
  if (Go.len mountPoint =? 0)%nat then
    Some (Some (Errorf "failed to find mountpoint, dir: (%s)"), s1)
  else
  let '(limit, err) := ToKilobytes E size in
  match err with
  | Some _ => Some (Wrapf err "failed to change size: (%s) to kilobytes", s1)
  | None =>
  match checkDevLimit E dir (Go.wrap64 (limit * 1024)) (world s1) with
  | Some e =>
      Some (Wrapf (Some e) "failed to check device limit, dir: (%s), limit: (%d)kb", s1)
  | None =>
  match SetSubtree dir quotaID s1 with
  | None => None
  | Some ((id, err), s2) =>
  match err with
  | Some _ =>
      Some (Wrapf err "failed to set subtree, dir: (%s), quota id: (%d)", s2)
  | None =>
  if (id =? 0)%N then
    Some (Some (Errorf "failed to find quota id to set subtree"), s2)
  else Some (setQuota id limit mountPoint s2)
  end end end end end.

(** *** SetQuotaIDInFileAttr, SetQuotaIDInFileAttrNoOutput, SetFileAttrRecursive *)

Definition SetQuotaIDInFileAttr (dir : string) (quotaID : N) (s : St World)
  : option error * St World :=
  let strid := Go.FormatUint quotaID in
  let '(_, fstype, err) := getMountpointFstype E dir (world s) in
  match err with
  | Some _ => (Wrapf err "failed to get fs type, dir: (%s), err: (%v)", s)
  | None =>
      if negb (String.eqb fstype xfsFS) then
        let '(r, s1) := Run ["chattr"; "-p"; strid; "+P"; dir] s in
        (Wrapf (run_err r) "failed to chattr, dir: (%s), quota id: (%d), stdout: (%s), stderr: (%s), exit: (%d)",
         s1)
      else
        let cmd := "project -s -p " ++ dir ++ " " ++ strid in
        let '(r, s1) := Run ["xfs_quota"; "-x"; "-c"; cmd] s in
        (Wrapf (run_err r) "failed to xfs_quota, dir: (%s), quota id: (%d), stdout: (%s), stderr: (%s), exit: (%d)",
         s1)
  end.

Definition SetQuotaIDInFileAttrNoOutput (dir : string) (quotaID : N)
    (s : St World) : St World :=
  let strid := Go.FormatUint quotaID in
  let '(_, fstype, err) := getMountpointFstype E dir (world s) in
  match err with
  | Some _ => s
  | None =>
      if negb (String.eqb fstype xfsFS) then
        snd (Run ["chattr"; "-p"; strid; "+P"; dir] s)
      else
        let cmd := "project -s -p " ++ dir ++ " " ++ strid in
        snd (Run ["xfs_quota"; "-x"; "-c"; cmd] s)
  end.

Definition SetFileAttrRecursive (dir : string) (quotaID : N) (s : St World)
  : option error * St World :=
  let strID := Go.FormatUint quotaID in
  let '(r, s1) := Run ["chattr"; "-R"; "-p"; strID; "+P"; dir] s in
  (Wrapf (run_err r) "failed to set file(%s) quota id(%d) by recursively", s1).

End Methods.

(** ** Reading the mount table the way CheckMountpoint reads it *)

Local Open Scope list_scope.

Section MountTable.

Context {World : Type}.
Variable E : Env World.

Definition supported_fs (fs : string) : bool :=
  String.eqb fs xfsFS || String.eqb fs ext3FS || String.eqb fs ext4FS.

Definition entry_mountpoint (line : string) : string := nth 1 (Go.Split line " ") "".
Definition entry_fstype (line : string) : string := nth 2 (Go.Split line " ") "".
Definition entry_options (line : string) : string := nth 3 (Go.Split line " ") "".

(** A line is a match for [devID] when it has six fields, a supported
    filesystem kind, and the device identifier of its mountpoint (the
    value [getDevID] yields, whatever its error) is [devID]. *)
Definition entry_matches (devID : N) (w : World) (line : string) : bool :=
  (length (Go.Split line " ") =? 6)%nat
  && supported_fs (entry_fstype line)
  && (devID =? fst (getDevID E (entry_mountpoint line) w))%N.

Definition matching_entries (devID : N) (w : World) (output : string) : list string :=
  List.filter (entry_matches devID w) (Go.Split output "010").

Definition matching_mountpoints (devID : N) (w : World) (output : string)
  : list string :=
  map entry_mountpoint (matching_entries devID w output).

(** [mp] is, among [ms], the last one of minimal length. *)
Definition last_shortest (mp : string) (ms : list string) : Prop :=
  exists l1 l2, ms = l1 ++ mp :: l2
    /\ Forall (fun m => Go.len mp <= Go.len m) l1
    /\ Forall (fun m => Go.len mp < Go.len m) l2.

(** [mp] is one of [ms] and none of [ms] is shorter. *)
Definition shortest_of (mp : string) (ms : list string) : Prop :=
  In mp ms /\ Forall (fun m => Go.len mp <= Go.len m) ms.

End MountTable.

(** ** Observing the log of commands *)

(** The two commands of the enablement step: the remount with the
    project-quota option and the activation of quota tracking. *)
Definition is_enablement_cmd (cmd : list string) : bool :=
  match cmd with
  | ["mount"; "-o"; "remount,prjquota"; _] => true
  | ["quotaon"; "-P"; _] => true
  | _ => false
  end.

(** The argument positions of the ext-family limit command, as the comment
    above setQuota gives them:
    setquota -P qid $softlimit $hardlimit $softinode $hardinode mountpoint *)
Definition setquota_soft_block (cmd : list string) : string := nth 3 cmd "".
Definition setquota_hard_block (cmd : list string) : string := nth 4 cmd "".
Definition setquota_soft_inode (cmd : list string) : string := nth 5 cmd "".
Definition setquota_hard_inode (cmd : list string) : string := nth 6 cmd "".

(** The test of the loop of GetQuotaIDInFileAttr: the line has more than
    two fields and the third is [dir]. *)
Definition line_names (dir line : string) : bool :=
  (2 <? length (Go.Split line " "))%nat
  && String.eqb (nth 2 (Go.Split line " ") "") dir.

(** ** Sequences of calls on one driver *)

Section Calls.

Context {World : Type}.
Variable E : Env World.

(** A call of an exported method, or a change of the world that happens
    outside the driver between two calls. *)
Inductive call : Type :=
  | CallEnforceQuota (dir : string)
  | CallSetSubtree (dir : string) (qid : N)
  | CallSetDiskQuota (dir size : string) (quotaID : N)
  | CallSetQuota (quotaID blockLimit : N) (mountPoint : string)
  | CallGetQuotaIDInFileAttr (dir : string)
  | CallSetQuotaIDInFileAttr (dir : string) (quotaID : N)
  | CallSetQuotaIDInFileAttrNoOutput (dir : string) (quotaID : N)
  | CallGetNextQuotaID
  | CallSetFileAttrRecursive (dir : string) (quotaID : N)
  | Outside (change : World -> World).

(** The state a call leaves, [None] when the call does not return. *)
Definition run_call (c : call) (s : St World) : option (St World) :=
  match c with
  | CallEnforceQuota dir => Some (EnforceQuota E dir s).2
  | CallSetSubtree dir qid => snd <$> SetSubtree E dir qid s
  | CallSetDiskQuota dir size quotaID => snd <$> SetDiskQuota E dir size quotaID s
  | CallSetQuota quotaID blockLimit mountPoint =>
      Some (setQuota E quotaID blockLimit mountPoint s).2
  | CallGetQuotaIDInFileAttr dir => Some (GetQuotaIDInFileAttr E dir s).2
  | CallSetQuotaIDInFileAttr dir quotaID =>
      Some (SetQuotaIDInFileAttr E dir quotaID s).2
  | CallSetQuotaIDInFileAttrNoOutput dir quotaID =>
      Some (SetQuotaIDInFileAttrNoOutput E dir quotaID s)
  | CallGetNextQuotaID => snd <$> GetNextQuotaID E s
  | CallSetFileAttrRecursive dir quotaID =>
      Some (SetFileAttrRecursive E dir quotaID s).2
  | Outside change => Some (set_world s (change (world s)))
  end.

Fixpoint run_calls (cs : list call) (s : St World) : option (St World) :=
  match cs with
  | [] => Some s
  | c :: cs' =>
      match run_call c s with
      | None => None
      | Some s' => run_calls cs' s'
      end
  end.

(** [n] calls of GetNextQuotaID in a row: the identifiers they return,
    in order, and the state they leave. [None] when a call does not
    return or returns an error. *)
Fixpoint allocate (n : nat) (s : St World) : option (list N * St World) :=
  match n with
  | O => Some ([], s)
  | S n' =>
      match GetNextQuotaID E s with
      | Some ((id, None), s1) =>
          match allocate n' s1 with
          | Some (ids, s2) => Some (id :: ids, s2)
          | None => None
          end
      | _ => None
      end
  end.

(** Every member of the set, the marker and the floor are below [B]. *)
Definition below (B : N) (ids : gset N) (last : N) : Prop :=
  (forall x, x ∈ ids -> (x < B)%N) /\ (last < B)%N /\ (QuotaMinID E < B)%N.

End Calls.

(** ** Concrete environments

    Small closed worlds on which the methods can be run. The world has a
    single state: what the tools and the kernel answer does not change. *)

Module Scenario.

Definition ok : RunResult := mkRunResult 0 "" "" None.

Definition failed (err_output : string) : RunResult :=
  mkRunResult 1 "" err_output (Some (Errorf "exit status 1")).

Definition newline : string := String "010" EmptyString.

(** An environment from: the text of the mount table, the answer of stat
    to each path, the filesystem kind reported for every directory, the
    answer of every command, the directories whose device limit can be
    set, and the budget in bytes the capacity check allows. *)
Definition env (mtab : string) (devs : string -> N * option error)
    (fs : string) (run : list string -> RunResult)
    (limit_ok : string -> bool) (budget : N) : Env unit :=
  {| QuotaMinID := 16777216;
     procMountFile := "/proc/mounts";
     getDevID := fun p _ => devs p;
     setDevLimit := fun dir _ w =>
       if limit_ok dir then ((budget, None), w)
       else ((0%N, Some (Errorf "failed to get path limit")), w);
     checkDevLimit := fun _ size _ =>
       if (size <=? budget)%N then None
       else Some (Errorf "dir quota is bigger than the limit of the device");
     getMountpointFstype := fun _ _ => ("/home/pouch", fs, None);
     loadQuotaIDs := fun _ w => ((∅, 16777216%N, None), w);
     ReadFile := fun _ _ => (mtab, None);
     exec_Run := fun cmd w => (run cmd, w);
     ToKilobytes := fun size =>
       if String.eqb size "10G" then (10485760%N, None)
       else if String.eqb size "20G" then (20971520%N, None)
       else (0%N, Some (Errorf "invalid byte quantity")) |}.

Definition init : St unit := mkSt tt (mkDriver ∅ ∅ 0) [].

(** Every path is on device 42. *)
Definition dev42 (p : string) : N * option error := (42%N, None).

(** The mount table of the scenario of the specification. *)
Definition pouch_mtab : string :=
  "/dev/sdb1 /home/pouch ext4 rw,relatime,data=ordered 0 0".

(** The same device seen at two mountpoints (a bind mount). *)
Definition bind_mtab : string :=
  Go.Join ["/dev/sdb1 /home/pouch ext4 rw,relatime 0 0";
           "/dev/sdb1 /home ext4 rw,relatime 0 0"] newline.

(** An entry with prjquota followed by a shorter entry without it, both
    mountpoints resolving to device 2065. *)
Definition stacked_mtab : string :=
  Go.Join ["/dev/sda1 /mnt/a ext4 rw,relatime,prjquota 0 0";
           "/dev/sdb1 /mnt ext4 rw,relatime 0 0"] newline.

Definition dev2065 (p : string) : N * option error := (2065%N, None).

Definition all_ok (cmd : list string) : RunResult := ok.

Definition any_dir (dir : string) : bool := true.

(** The activation tool fails, and how: [err_output] is what it writes to
    its standard error. Every other command succeeds. *)
Definition quotaon_fails (err_output : string) (cmd : list string) : RunResult :=
  match cmd with
  | "quotaon" :: _ => failed err_output
  | _ => ok
  end.

(** The device limit can be set for /data/c1 only. *)
Definition only_c1 (dir : string) : bool := String.eqb dir "/data/c1".

(** lsattr reports that /data/c1 carries the identifier 16777256. *)
Definition lsattr_tagged (cmd : list string) : RunResult :=
  match cmd with
  | "lsattr" :: _ =>
      mkRunResult 0 "16777256 --------------e---P /data/c1" "" None
  | _ => ok
  end.

(** The scenario of the specification: /data/c1 on device 42, an ext4
    mount without the project-quota option, every tool succeeds, and a
    budget of 100 GiB. *)
Definition pouch : Env unit :=
  env pouch_mtab dev42 ext4FS all_ok any_dir 107374182400.

(** The same with a budget of 1 GiB. *)
Definition pouch_small : Env unit :=
  env pouch_mtab dev42 ext4FS all_ok any_dir 1073741824.

(** A driver whose marker has reached the top of the uint32 range and
    that holds the identifier 16777217, allocated earlier. *)
Definition at_top : St unit := mkSt tt (mkDriver {[16777217%N]} ∅ 4294967295) [].

(** The scenario of the specification on a host where the listing of
    identifiers in use, as loadQuotaIDs reports it, holds 4294967295 and
    gives it as the marker. *)
Definition pouch_top : Env unit :=
  {| QuotaMinID := QuotaMinID pouch;
     procMountFile := procMountFile pouch;
     getDevID := getDevID pouch;
     setDevLimit := setDevLimit pouch;
     checkDevLimit := checkDevLimit pouch;
     getMountpointFstype := getMountpointFstype pouch;
     loadQuotaIDs := fun _ w => (({[4294967295%N]}, 4294967295%N, None), w);
     ReadFile := ReadFile pouch;
     exec_Run := exec_Run pouch;
     ToKilobytes := ToKilobytes pouch |}.

(** A mount table without an entry of a supported filesystem kind. *)
Definition tmpfs_mtab : string :=
  Go.Join ["tmpfs /run tmpfs rw,nosuid,nodev,mode=755 0 0";
           "cgroup /sys/fs/cgroup/memory cgroup rw,nosuid,nodev,noexec,relatime,memory 0 0"]
    newline.

(** The table in the comment above CheckMountpoint: device 42 is mounted
    once, at /home/pouch, with the project-quota option. *)
Definition comment_mtab : string :=
  Go.Join ["/dev/sda3 / ext4 rw,relatime,data=ordered 0 0";
           "/dev/sda5 /home ext4 rw,relatime,data=ordered 0 0";
           "/dev/sdb1 /home/pouch ext4 rw,relatime,prjquota,data=ordered 0 0";
           "tmpfs /run tmpfs rw,nosuid,nodev,mode=755 0 0"] newline.

(** stat for [comment_mtab]: /home/pouch and what lies below it is on
    device 42, everything else on device 7. *)
Definition dev_by_prefix (p : string) : N * option error :=
  if Go.HasPrefix p "/home/pouch" then (42%N, None) else (7%N, None).

(** The remount fails; every other command succeeds. *)
Definition mount_fails (cmd : list string) : RunResult :=
  match cmd with
  | "mount" :: _ => failed "mount: /home/pouch not mounted or bad option"
  | _ => ok
  end.

(** An xfs mount of device 42 without the project-quota option. *)
Definition xfs_mtab : string :=
  "/dev/sdb1 /home/pouch xfs rw,relatime,attr2,inode64,noquota 0 0".

(** lsattr lists two directories below /data, /data/c1 second. *)
Definition lsattr_two (cmd : list string) : RunResult :=
  match cmd with
  | "lsattr" :: _ =>
      mkRunResult 0
        (Go.Join ["16777300 --------------e---P /data/c0";
                  (Go.FormatUint 16777256 ++ " " ++ "--------------e---P" ++ " "
                   ++ "/data/c1")%string] newline)
        "" None
  | _ => ok
  end.

End Scenario.

(** ** The annotation conversion of the API plugin

    [convertResourceWrapToAnnotation] of the second source file copies the
    fields of a [ResourcesWrapper] that are set into the annotation map.
    The annotation keys (the [hp.Spec...] constants), the type
    [types.ThrottleDevice] and [sliceThrottleDeviceString] are declared in
    other packages and are parameters here. The Go function updates the
    map it is given in place; here it returns the updated map. *)

Module ApiPlugin.

(** [strconv.FormatInt(i, 10)] and [strconv.Itoa(i)]. *)
Definition FormatInt (i : Z) : string :=
  if (i <? 0)%Z then ("-" ++ Go.FormatUint (Z.to_N (- i)))%string
  else Go.FormatUint (Z.to_N i).

(** The annotation keys, named as the constants of package hookplugins. *)
Record Keys : Type := mkKeys {
  SpecCpusetTrickCpus : string;
  SpecCpusetTrickTasks : string;
  SpecCpusetTrickExemptTasks : string;
  SpecCPUBvtWarpNs : string;
  SpecCpuacctSchedLatSwitch : string;
  SpecMemoryWmarkRatio : string;
  SpecMemoryExtraInBytes : string;
  SpecMemoryForceEmptyCtl : string;
  SpecMemoryPriority : string;
  SpecMemoryUsePriorityOOM : string;
  SpecMemoryOOMKillAll : string;
  SpecMemoryDroppable : string;
  SpecIntelRdtL3Cbm : string;
  SpecIntelRdtGroup : string;
  SpecIntelRdtMba : string;
  SpecBlkioFileLevelSwitch : string;
  SpecBlkioBufferWriteBps : string;
  SpecBlkioMetaWriteTps : string;
  SpecBlkioFileThrottlePath : string;
  SpecBlkioBufferWriteSwitch : string;
  SpecBlkioDeviceBufferWriteBps : string;
  SpecBlkioDeviceIdleTime : string;
  SpecBlkioDeviceLatencyTarget : string;
  SpecBlkioDeviceReadLowBps : string;
  SpecBlkioDeviceReadLowIOps : string;
  SpecBlkioDeviceWriteLowBps : string;
  SpecBlkioDeviceWriteLowIOps : string;
  SpecNetCgroupRate : string;
  SpecNetCgroupCeil : string;
}.

(** The struct [ResourcesWrapper]: [int] and [int64] fields are integers,
    a [*int] field is an optional integer ([None] is nil), a slice is a
    list (nil and empty have length 0 alike), a slice of pointers to
    throttle devices a list of optional devices. *)
Record ResourcesWrapper (ThrottleDevice : Type) : Type := mkResourcesWrapper {
  CpusetTrickCpus : string;
  CpusetTrickTasks : string;
  CpusetTrickExemptTasks : string;
  CPUBvtWarpNs : Z;
  ScheLatSwitch : Z;
  MemoryWmarkRatio : Z;
  MemoryExtra : Z;
  MemoryForceEmptyCtl : Z;
  MemoryPriority : option Z;
  MemoryUsePriorityOOM : option Z;
  MemoryKillAll : option Z;
  MemoryDroppable : Z;
  IntelRdtL3Cbm : string;
  IntelRdtGroup : string;
  IntelRdtMba : string;
  BlkFileLevelSwitch : Z;
  BlkBufferWriteBps : Z;
  BlkMetaWriteTps : Z;
  BlkFileThrottlePath : list string;
  BlkBufferWriteSwitch : Z;
  BlkDeviceBufferWriteBps : list (option ThrottleDevice);
  BlkDeviceIdleTime : list (option ThrottleDevice);
  BlkDeviceLatencyTarget : list (option ThrottleDevice);
  BlkioDeviceReadLowBps : list (option ThrottleDevice);
  BlkioDeviceReadLowIOps : list (option ThrottleDevice);
  BlkioDeviceWriteLowBps : list (option ThrottleDevice);
  BlkioDeviceWriteLowIOps : list (option ThrottleDevice);
  NetCgroupRate : string;
  NetCgroupCeil : string;
}.

Arguments CpusetTrickCpus {ThrottleDevice} _.
Arguments CpusetTrickTasks {ThrottleDevice} _.
Arguments CpusetTrickExemptTasks {ThrottleDevice} _.
Arguments CPUBvtWarpNs {ThrottleDevice} _.
Arguments ScheLatSwitch {ThrottleDevice} _.
Arguments MemoryWmarkRatio {ThrottleDevice} _.
Arguments MemoryExtra {ThrottleDevice} _.
Arguments MemoryForceEmptyCtl {ThrottleDevice} _.
Arguments MemoryPriority {ThrottleDevice} _.
Arguments MemoryUsePriorityOOM {ThrottleDevice} _.
Arguments MemoryKillAll {ThrottleDevice} _.
Arguments MemoryDroppable {ThrottleDevice} _.
Arguments IntelRdtL3Cbm {ThrottleDevice} _.
Arguments IntelRdtGroup {ThrottleDevice} _.
Arguments IntelRdtMba {ThrottleDevice} _.
Arguments BlkFileLevelSwitch {ThrottleDevice} _.
Arguments BlkBufferWriteBps {ThrottleDevice} _.
Arguments BlkMetaWriteTps {ThrottleDevice} _.
Arguments BlkFileThrottlePath {ThrottleDevice} _.
Arguments BlkBufferWriteSwitch {ThrottleDevice} _.
Arguments BlkDeviceBufferWriteBps {ThrottleDevice} _.
Arguments BlkDeviceIdleTime {ThrottleDevice} _.
Arguments BlkDeviceLatencyTarget {ThrottleDevice} _.
Arguments BlkioDeviceReadLowBps {ThrottleDevice} _.
Arguments BlkioDeviceReadLowIOps {ThrottleDevice} _.
Arguments BlkioDeviceWriteLowBps {ThrottleDevice} _.
Arguments BlkioDeviceWriteLowIOps {ThrottleDevice} _.
Arguments NetCgroupRate {ThrottleDevice} _.
Arguments NetCgroupCeil {ThrottleDevice} _.

(** [if cond { specAnnotation[key] = value }]. *)
Definition set_if (cond : bool) (key value : string) (m : gmap string string)
  : gmap string string :=
  if cond then <[key := value]> m else m.

(** The same for a pointer field [p]: the statement writes when [p] is
    not nil and the integer it points to is not 0, and the value is
    [strconv.Itoa] of that integer. *)
Definition set_ptr (p : option Z) (key : string) (m : gmap string string)
  : gmap string string :=
  match p with
  | Some i => set_if (negb (i =? 0)%Z) key (FormatInt i) m
  | None => m
  end.

Section Convert.

Context {ThrottleDevice : Type}.
Variable K : Keys.
Variable sliceThrottleDeviceString : list (option ThrottleDevice) -> string.

Definition nonempty (v : string) : bool := negb (String.eqb v "").
Definition nonzero (i : Z) : bool := negb (i =? 0)%Z.
Definition has_elems {A : Type} (l : list A) : bool := negb (length l =? 0)%nat.

Definition convertResourceWrapToAnnotation
    (resourceWrapper : ResourcesWrapper ThrottleDevice)
    (specAnnotation : gmap string string) : gmap string string :=
  let rw := resourceWrapper in
  let m := specAnnotation in
  (* set cpu cgroup *)
  let m := set_if (nonempty (CpusetTrickCpus rw)) (SpecCpusetTrickCpus K)
             (CpusetTrickCpus rw) m in
  let m := set_if (nonempty (CpusetTrickTasks rw)) (SpecCpusetTrickTasks K)
             (CpusetTrickTasks rw) m in
  let m := set_if (nonempty (CpusetTrickExemptTasks rw)) (SpecCpusetTrickExemptTasks K)
             (CpusetTrickExemptTasks rw) m in
  let m := set_if (nonzero (CPUBvtWarpNs rw)) (SpecCPUBvtWarpNs K)
             (FormatInt (CPUBvtWarpNs rw)) m in
  let m := set_if (nonzero (ScheLatSwitch rw)) (SpecCpuacctSchedLatSwitch K)
             (FormatInt (ScheLatSwitch rw)) m in
  (* set memory cgroup *)
  let m := set_if (nonzero (MemoryWmarkRatio rw)) (SpecMemoryWmarkRatio K)
             (FormatInt (MemoryWmarkRatio rw)) m in
  let m := set_if (nonzero (MemoryExtra rw)) (SpecMemoryExtraInBytes K)
             (FormatInt (MemoryExtra rw)) m in
  let m := set_if (nonzero (MemoryForceEmptyCtl rw)) (SpecMemoryForceEmptyCtl K)
             (FormatInt (MemoryForceEmptyCtl rw)) m in
  let m := set_ptr (MemoryPriority rw) (SpecMemoryPriority K) m in
  let m := set_ptr (MemoryUsePriorityOOM rw) (SpecMemoryUsePriorityOOM K) m in
  let m := set_ptr (MemoryKillAll rw) (SpecMemoryOOMKillAll K) m in
  let m := set_if (nonzero (MemoryDroppable rw)) (SpecMemoryDroppable K)
             (FormatInt (MemoryDroppable rw)) m in
  (* set intel rdt *)
  let m := set_if (nonempty (IntelRdtL3Cbm rw)) (SpecIntelRdtL3Cbm K)
             (IntelRdtL3Cbm rw) m in
  let m := set_if (nonempty (IntelRdtGroup rw)) (SpecIntelRdtGroup K)
             (IntelRdtGroup rw) m in
  let m := set_if (nonempty (IntelRdtMba rw)) (SpecIntelRdtMba K)
             (IntelRdtMba rw) m in
  (* set blkio cgroup *)
  let m := set_if (nonzero (BlkFileLevelSwitch rw)) (SpecBlkioFileLevelSwitch K)
             (FormatInt (BlkFileLevelSwitch rw)) m in
  let m := set_if (nonzero (BlkBufferWriteBps rw)) (SpecBlkioBufferWriteBps K)
             (FormatInt (BlkBufferWriteBps rw)) m in
  let m := set_if (nonzero (BlkMetaWriteTps rw)) (SpecBlkioMetaWriteTps K)
             (FormatInt (BlkMetaWriteTps rw)) m in
  let m := set_if (has_elems (BlkFileThrottlePath rw)) (SpecBlkioFileThrottlePath K)
             (Go.Join (BlkFileThrottlePath rw) " ") m in
  let m := set_if (nonzero (BlkBufferWriteSwitch rw)) (SpecBlkioBufferWriteSwitch K)
             (FormatInt (BlkBufferWriteSwitch rw)) m in
  let m := set_if (has_elems (BlkDeviceBufferWriteBps rw))
             (SpecBlkioDeviceBufferWriteBps K)
             (sliceThrottleDeviceString (BlkDeviceBufferWriteBps rw)) m in
  let m := set_if (has_elems (BlkDeviceIdleTime rw)) (SpecBlkioDeviceIdleTime K)
             (sliceThrottleDeviceString (BlkDeviceIdleTime rw)) m in
  let m := set_if (has_elems (BlkDeviceLatencyTarget rw))
             (SpecBlkioDeviceLatencyTarget K)
             (sliceThrottleDeviceString (BlkDeviceLatencyTarget rw)) m in
  let m := set_if (has_elems (BlkioDeviceReadLowBps rw)) (SpecBlkioDeviceReadLowBps K)
             (sliceThrottleDeviceString (BlkioDeviceReadLowBps rw)) m in
  let m := set_if (has_elems (BlkioDeviceReadLowIOps rw)) (SpecBlkioDeviceReadLowIOps K)
             (sliceThrottleDeviceString (BlkioDeviceReadLowIOps rw)) m in
  let m := set_if (has_elems (BlkioDeviceWriteLowBps rw)) (SpecBlkioDeviceWriteLowBps K)
             (sliceThrottleDeviceString (BlkioDeviceWriteLowBps rw)) m in
  let m := set_if (has_elems (BlkioDeviceWriteLowIOps rw))
             (SpecBlkioDeviceWriteLowIOps K)
             (sliceThrottleDeviceString (BlkioDeviceWriteLowIOps rw)) m in
  (* set net cgroup *)
  let m := set_if (nonempty (NetCgroupRate rw)) (SpecNetCgroupRate K)
             (NetCgroupRate rw) m in
  let m := set_if (nonempty (NetCgroupCeil rw)) (SpecNetCgroupCeil K)
             (NetCgroupCeil rw) m in
  m.

(** What the function does, as a table in the order of its statements:
    for each annotation key, the value its statement writes, or [None]
    when the field is not set and the statement writes nothing. *)
Definition of_string (v : string) : option string :=
  if nonempty v then Some v else None.
Definition of_int (i : Z) : option string :=
  if nonzero i then Some (FormatInt i) else None.
Definition of_ptr (p : option Z) : option string :=
  match p with Some i => of_int i | None => None end.
Definition of_paths (l : list string) : option string :=
  if has_elems l then Some (Go.Join l " ") else None.
Definition of_devices (l : list (option ThrottleDevice)) : option string :=
  if has_elems l then Some (sliceThrottleDeviceString l) else None.

Definition writes (rw : ResourcesWrapper ThrottleDevice)
  : list (string * option string) :=
  [ (SpecCpusetTrickCpus K, of_string (CpusetTrickCpus rw));
    (SpecCpusetTrickTasks K, of_string (CpusetTrickTasks rw));
    (SpecCpusetTrickExemptTasks K, of_string (CpusetTrickExemptTasks rw));
    (SpecCPUBvtWarpNs K, of_int (CPUBvtWarpNs rw));
    (SpecCpuacctSchedLatSwitch K, of_int (ScheLatSwitch rw));
    (SpecMemoryWmarkRatio K, of_int (MemoryWmarkRatio rw));
    (SpecMemoryExtraInBytes K, of_int (MemoryExtra rw));
    (SpecMemoryForceEmptyCtl K, of_int (MemoryForceEmptyCtl rw));
    (SpecMemoryPriority K, of_ptr (MemoryPriority rw));
    (SpecMemoryUsePriorityOOM K, of_ptr (MemoryUsePriorityOOM rw));
    (SpecMemoryOOMKillAll K, of_ptr (MemoryKillAll rw));
    (SpecMemoryDroppable K, of_int (MemoryDroppable rw));
    (SpecIntelRdtL3Cbm K, of_string (IntelRdtL3Cbm rw));
    (SpecIntelRdtGroup K, of_string (IntelRdtGroup rw));
    (SpecIntelRdtMba K, of_string (IntelRdtMba rw));
    (SpecBlkioFileLevelSwitch K, of_int (BlkFileLevelSwitch rw));
    (SpecBlkioBufferWriteBps K, of_int (BlkBufferWriteBps rw));
    (SpecBlkioMetaWriteTps K, of_int (BlkMetaWriteTps rw));
    (SpecBlkioFileThrottlePath K, of_paths (BlkFileThrottlePath rw));
    (SpecBlkioBufferWriteSwitch K, of_int (BlkBufferWriteSwitch rw));
    (SpecBlkioDeviceBufferWriteBps K, of_devices (BlkDeviceBufferWriteBps rw));
    (SpecBlkioDeviceIdleTime K, of_devices (BlkDeviceIdleTime rw));
    (SpecBlkioDeviceLatencyTarget K, of_devices (BlkDeviceLatencyTarget rw));
    (SpecBlkioDeviceReadLowBps K, of_devices (BlkioDeviceReadLowBps rw));
    (SpecBlkioDeviceReadLowIOps K, of_devices (BlkioDeviceReadLowIOps rw));
    (SpecBlkioDeviceWriteLowBps K, of_devices (BlkioDeviceWriteLowBps rw));
    (SpecBlkioDeviceWriteLowIOps K, of_devices (BlkioDeviceWriteLowIOps rw));
    (SpecNetCgroupRate K, of_string (NetCgroupRate rw));
    (SpecNetCgroupCeil K, of_string (NetCgroupCeil rw)) ].

(** The annotation keys the function can write. *)
Definition written_keys (rw : ResourcesWrapper ThrottleDevice) : list string :=
  map fst (writes rw).

End Convert.

(** One statement of the table applied to a map. *)
Definition apply_write (m : gmap string string) (w : string * option string)
  : gmap string string :=
  match w.2 with
  | Some v => <[w.1 := v]> m
  | None => m
  end.

(** The value the last statement of [ws] that writes under [key] writes. *)
Fixpoint last_write (ws : list (string * option string)) (key : string)
  : option string :=
  match ws with
  | [] => None
  | w :: rest =>
      match last_write rest key with
      | Some v => Some v
      | None => if String.eqb w.1 key then w.2 else None
      end
  end.

(** Keys to try the conversion on, and a request that sets a string, an
    integer, a pointer and a list of paths. *)
Definition sample_keys : Keys :=
  mkKeys "k01" "k02" "k03" "k04" "k05" "k06" "k07" "k08" "k09" "k10"
         "k11" "k12" "k13" "k14" "k15" "k16" "k17" "k18" "k19" "k20"
         "k21" "k22" "k23" "k24" "k25" "k26" "k27" "k28" "k29".

Definition sample_request : ResourcesWrapper unit :=
  mkResourcesWrapper unit "2-4,7-9" "" "" (-5) 0 0 0 0 (Some 3%Z) (Some 0%Z) None 0
    "" "" "" 0 0 0 ["/a"; "/b"] 0 [] [] [] [] [] [] [] "" "".

Definition sample_devices (l : list (option unit)) : string := "devices".

End ApiPlugin.

(** * Properties *)

Section CheckMountpointFacts.

Context {World : Type}.
Variable E : Env World.

Lemma check_line_eq devID w mp q fs line :
  check_line E devID w (mp, q, fs) line =
  if entry_matches E devID w line then
    if negb (String.eqb mp "") && (Go.len mp <? Go.len (entry_mountpoint line))%nat
    then (mp, q, fs)
    else (entry_mountpoint line, q || has_prjquota (entry_options line),
          entry_fstype line)
  else (mp, q, fs).
Proof.
  unfold check_line, entry_matches, supported_fs, entry_mountpoint,
    entry_fstype, entry_options.
  destruct (length (Go.Split line " ") =? 6)%nat; simpl; [|reflexivity].
  destruct (String.eqb (nth 2 (Go.Split line " ") "") xfsFS),
    (String.eqb (nth 2 (Go.Split line " ") "") ext3FS),
    (String.eqb (nth 2 (Go.Split line " ") "") ext4FS); simpl;
    try reflexivity;
    destruct (getDevID E (nth 1 (Go.Split line " ") "") w) as [d e]; simpl;
    destruct (devID =? d)%N; reflexivity.
Qed.

Lemma last_shortest_shortest_of mp ms : last_shortest mp ms -> shortest_of mp ms.
Proof.
  intros (l1 & l2 & -> & H1 & H2). split.
  - apply in_or_app. right. now left.
  - apply Forall_app. split; [exact H1|].
    constructor; [lia|].
    eapply List.Forall_impl; [|exact H2]. simpl. intros. lia.
Qed.

(** The invariant of the loop of CheckMountpoint, for the mountpoint it
    holds after the lines [lines], when no matching line has an empty
    mountpoint field. *)
Lemma scan_mountpoint_invariant devID w lines :
  Forall (fun m => m <> "")
    (map entry_mountpoint (List.filter (entry_matches E devID w) lines)) ->
  let mp := (fold_left (check_line E devID w) lines ("", false, "")).1.1 in
  match map entry_mountpoint (List.filter (entry_matches E devID w) lines) with
  | [] => mp = ""
  | ms => last_shortest mp ms
  end.
Proof.
  induction lines as [|line lines IH] using rev_ind; intros Hne; [reflexivity|].
  rewrite List.filter_app, map_app in Hne. apply Forall_app in Hne as [Hne1 Hne2].
  specialize (IH Hne1). cbv zeta in IH.
  cbv zeta. rewrite fold_left_app, List.filter_app, map_app. simpl.
  destruct (fold_left (check_line E devID w) lines ("", false, "")) as [[mp q] fs].
  rewrite check_line_eq. simpl in IH.
  destruct (entry_matches E devID w line) eqn:Hm; simpl.
  - simpl in Hne2. rewrite Hm in Hne2. simpl in Hne2. clear Hne2.
    destruct (map entry_mountpoint (List.filter (entry_matches E devID w) lines))
      as [|m ms] eqn:Hms.
    + subst mp. simpl. exists [], []. repeat split; constructor.
    + destruct IH as (l1 & l2 & Heq & H1 & H2).
      assert (Hmp : mp <> "").
      { rewrite List.Forall_forall in Hne1. apply Hne1. rewrite Heq.
        apply in_or_app. right. now left. }
      apply String.eqb_neq in Hmp. rewrite Hmp. simpl.
      destruct (Go.len mp <? Go.len (entry_mountpoint line))%nat eqn:Hlt; simpl.
      * apply Nat.ltb_lt in Hlt.
        exists l1, (l2 ++ [entry_mountpoint line]). repeat split.
        -- rewrite app_comm_cons, Heq, <- app_assoc. reflexivity.
        -- exact H1.
        -- apply Forall_app. split; [exact H2|]. constructor; [exact Hlt|constructor].
      * apply Nat.ltb_ge in Hlt.
        exists (m :: ms), []. repeat split; [|constructor].
        rewrite Heq. apply Forall_app. split.
        -- eapply List.Forall_impl; [|exact H1]. simpl. intros. lia.
        -- constructor; [exact Hlt|].
           eapply List.Forall_impl; [|exact H2]. simpl. intros. lia.
  - rewrite app_nil_r. exact IH.
Qed.

(** An entry with an empty mountpoint field is a match only for the
    device identifier that [getDevID] yields for the empty path. The
    kernel writes no such entry, and stat of the empty path fails, so for
    the device of a directory that stat has reported the mountpoints of
    the matching entries are not empty. *)
Lemma matching_mountpoints_nonempty devID w output :
  (getDevID E "" w).1 <> devID ->
  Forall (fun m => m <> "") (matching_mountpoints E devID w output).
Proof.
  intros Hdev. apply List.Forall_forall. intros m Hin Hm. subst m.
  unfold matching_mountpoints, matching_entries in Hin.
  apply in_map_iff in Hin as (line & Hmp & Hline).
  apply filter_In in Hline as [_ Hmatch].
  unfold entry_matches in Hmatch. apply andb_prop in Hmatch as [_ Hmatch].
  apply N.eqb_eq in Hmatch. rewrite Hmp in Hmatch. now apply Hdev.
Qed.

End CheckMountpointFacts.


Section CheckMountpointShortest.

Context {World : Type}.
Variable E : Env World.

(** C5: when the mount table was read and more than one six-field entry
    of a supported filesystem kind has a mountpoint on the queried device,
    CheckMountpoint returns one of the matching mountpoints, none of them
    is shorter, and it is the last of those of minimal length in the order
    of the table. The mountpoint fields of the matching entries are not
    empty: that is a fact of the mount table the kernel writes, which
    [matching_mountpoints_nonempty] derives for every device other than
    the one [getDevID] yields for the empty path. *)
Theorem CheckMountpoint_shortest (devID : N) (w : World) (output : string) :
  ReadFile E (procMountFile E) w = (output, None) ->
  1 < length (matching_mountpoints E devID w output) ->
  Forall (fun m => m <> "") (matching_mountpoints E devID w output) ->
  shortest_of (CheckMountpoint E devID w).1.1
    (matching_mountpoints E devID w output)
  /\ last_shortest (CheckMountpoint E devID w).1.1
       (matching_mountpoints E devID w output).
Proof.
  intros Hread Hlen Hne.
  assert (Hlast : last_shortest (CheckMountpoint E devID w).1.1
                    (matching_mountpoints E devID w output)).
  { unfold CheckMountpoint. rewrite Hread.
    pose proof (scan_mountpoint_invariant E devID w (Go.Split output "010") Hne)
      as Hinv.
    cbv zeta in Hinv.
    unfold matching_mountpoints, matching_entries in *.
    destruct (map entry_mountpoint
                (List.filter (entry_matches E devID w) (Go.Split output "010")))
      as [|m ms]; [simpl in Hlen; lia|exact Hinv]. }
  split; [now apply last_shortest_shortest_of|exact Hlast].
Qed.

End CheckMountpointShortest.

(** The bind mount of the scenario: /home is returned, the shorter of the
    two mountpoints of device 42. *)
Lemma CheckMountpoint_shortest_witness :
  let E := Scenario.env Scenario.bind_mtab Scenario.dev42 ext4FS Scenario.all_ok
             Scenario.any_dir 0 in
  shortest_of (CheckMountpoint E 42 tt).1.1
    (matching_mountpoints E 42 tt Scenario.bind_mtab)
  /\ last_shortest (CheckMountpoint E 42 tt).1.1
       (matching_mountpoints E 42 tt Scenario.bind_mtab).
Proof.
  apply (CheckMountpoint_shortest
           (Scenario.env Scenario.bind_mtab Scenario.dev42 ext4FS Scenario.all_ok
              Scenario.any_dir 0) 42 tt Scenario.bind_mtab).
  - reflexivity.
  - vm_compute. lia.
  - vm_compute. repeat constructor; discriminate.
Defined.


(** ** EnforceQuota *)

Section EnforceQuotaFacts.

Context {World : Type}.
Variable E : Env World.

Lemma Run_trace cmd (s : St World) :
  trace (Run E cmd s).2 = trace s ++ [cmd] /\ driver (Run E cmd s).2 = driver s.
Proof. unfold Run. destruct (exec_Run E cmd (world s)). now simpl. Qed.

(** A device that is in the cache is answered from the cache: the state
    changes by the device-limit pre-check only. *)
Lemma EnforceQuota_cached dir (s : St World) devID lim w1 mp :
  getDevID E dir (world s) = (devID, None) ->
  setDevLimit E dir devID (world s) = ((lim, None), w1) ->
  mountPoints (driver s) !! devID = Some mp ->
  EnforceQuota E dir s = ((mp, None), set_world s w1).
Proof.
  intros Hdev Hlim Hmp. unfold EnforceQuota.
  rewrite Hdev, Hlim. simpl. now rewrite Hmp.
Qed.

Lemma Run_inv cmd (s : St World) r s' :
  Run E cmd s = (r, s') ->
  trace s' = trace s ++ [cmd] /\ driver s' = driver s
  /\ (r, world s') = exec_Run E cmd (world s).
Proof.
  unfold Run. destruct (exec_Run E cmd (world s)). intros [= <- <-]. now simpl.
Qed.

(** What a call of EnforceQuota does to the state: it runs enablement
    commands only, it leaves the identifier set and the marker alone, it
    keeps every cache entry it finds, and when it returns without error
    the cache holds the mountpoint it returns for the device. *)
Lemma EnforceQuota_effect dir (s : St World) mp err s1 :
  EnforceQuota E dir s = ((mp, err), s1) ->
  (exists cmds, trace s1 = trace s ++ cmds
                /\ forallb is_enablement_cmd cmds = true)
  /\ quotaIDs (driver s1) = quotaIDs (driver s)
  /\ lastID (driver s1) = lastID (driver s)
  /\ (forall d m, mountPoints (driver s) !! d = Some m ->
                 mountPoints (driver s1) !! d = Some m)
  /\ (err = None ->
      mountPoints (driver s1) !! (getDevID E dir (world s)).1 = Some mp).
Proof.
  unfold EnforceQuota. intros H.
  repeat case_match; simplify_eq; simpl in *.
  all: repeat match goal with
         | H : Run _ _ _ = (_, _) |- _ =>
             apply Run_inv in H; destruct H as (? & ? & _)
         end; simpl in *.
  all: repeat match goal with
         | H : trace _ = _ |- _ => rewrite H; clear H
         | H : driver _ = _ |- _ => rewrite H; clear H
         end; simpl.
  all: rewrite <- ?app_assoc.
  all: split; [first [by exists []; rewrite app_nil_r | by eexists]|].
  all: repeat split; try done.
  all: intros; simplify_map_eq; done.
Qed.

(** Only EnforceQuota writes the cache. *)
Ltac run_facts :=
  repeat match goal with
    | H : Run _ _ _ = (_, _) |- _ =>
        apply Run_inv in H; destruct H as (? & ? & ?)
    end.

Lemma GetQuotaIDInFileAttr_effect dir (s : St World) :
  driver (GetQuotaIDInFileAttr E dir s).2 = driver s
  /\ trace (GetQuotaIDInFileAttr E dir s).2 = trace s ++ [["lsattr"; "-p"; Go.Dir dir]]
  /\ world (GetQuotaIDInFileAttr E dir s).2
     = (exec_Run E ["lsattr"; "-p"; Go.Dir dir] (world s)).2.
Proof.
  unfold GetQuotaIDInFileAttr.
  destruct (Run E ["lsattr"; "-p"; Go.Dir dir] s) as [r s1] eqn:HR.
  apply Run_inv in HR as (Ht & Hd & Hw).
  rewrite <- Hw. now destruct (run_err r).
Qed.

Lemma bind_subtree_driver dir id (s : St World) :
  driver (bind_subtree E dir id s).2 = driver s.
Proof.
  unfold bind_subtree. repeat case_match; simplify_eq; run_facts; simpl; done.
Qed.

Lemma setQuota_driver quotaID blockLimit mountPoint (s : St World) :
  driver (setQuota E quotaID blockLimit mountPoint s).2 = driver s.
Proof.
  unfold setQuota. repeat case_match; simplify_eq; run_facts; simpl; done.
Qed.

Lemma SetQuotaIDInFileAttr_driver dir quotaID (s : St World) :
  driver (SetQuotaIDInFileAttr E dir quotaID s).2 = driver s.
Proof.
  unfold SetQuotaIDInFileAttr. repeat case_match; simplify_eq; run_facts; simpl; done.
Qed.

Lemma SetQuotaIDInFileAttrNoOutput_driver dir quotaID (s : St World) :
  driver (SetQuotaIDInFileAttrNoOutput E dir quotaID s) = driver s.
Proof.
  unfold SetQuotaIDInFileAttrNoOutput.
  repeat case_match; simplify_eq; try done; apply Run_trace.
Qed.

Lemma SetFileAttrRecursive_driver dir quotaID (s : St World) :
  driver (SetFileAttrRecursive E dir quotaID s).2 = driver s.
Proof.
  unfold SetFileAttrRecursive. repeat case_match; simplify_eq; run_facts; simpl; done.
Qed.

Lemma GetNextQuotaID_mountPoints (s : St World) r s1 :
  GetNextQuotaID E s = Some (r, s1) ->
  mountPoints (driver s1) = mountPoints (driver s).
Proof.
  unfold GetNextQuotaID, lazy_load. intros H.
  repeat case_match; simplify_eq; done.
Qed.

Lemma SetSubtree_mountPoints dir qid (s : St World) r s1 :
  SetSubtree E dir qid s = Some (r, s1) ->
  mountPoints (driver s1) = mountPoints (driver s).
Proof.
  unfold SetSubtree. intros H.
  pose proof (GetQuotaIDInFileAttr_effect dir s) as (Hd & _ & _).
  repeat case_match; simplify_eq; simpl in *;
    repeat match goal with
      | H : GetNextQuotaID _ _ = Some _ |- _ =>
          apply GetNextQuotaID_mountPoints in H
      end;
    repeat match goal with
      | H : bind_subtree _ ?d ?i ?s = (_, _) |- _ =>
          let K := fresh in
          pose proof (bind_subtree_driver d i s) as K; rewrite H in K;
          simpl in K; clear H
      end;
    congruence.
Qed.

Lemma SetDiskQuota_mountPoints dir size quotaID (s : St World) r s1 d m :
  SetDiskQuota E dir size quotaID s = Some (r, s1) ->
  mountPoints (driver s) !! d = Some m ->
  mountPoints (driver s1) !! d = Some m.
Proof.
  unfold SetDiskQuota. intros H Hm.
  destruct (EnforceQuota E dir s) as [[mp err] s0] eqn:HE.
  apply EnforceQuota_effect in HE as (_ & _ & _ & Hkeep & _).
  apply Hkeep in Hm.
  repeat case_match; simplify_eq; try done;
    repeat match goal with
      | H : SetSubtree _ _ _ _ = Some _ |- _ =>
          apply SetSubtree_mountPoints in H
      end;
    repeat match goal with
      | H : setQuota _ ?i ?l ?m ?s = (_, _) |- _ =>
          let K := fresh in
          pose proof (setQuota_driver i l m s) as K; rewrite H in K;
          simpl in K; clear H
      end;
    congruence.
Qed.

Lemma run_call_keeps_cache c (s s1 : St World) d m :
  run_call E c s = Some s1 ->
  mountPoints (driver s) !! d = Some m ->
  mountPoints (driver s1) !! d = Some m.
Proof.
  destruct c; simpl; intros H Hm.
  - injection H as <-.
    destruct (EnforceQuota E dir s) as [[mp err] s0] eqn:HE.
    apply EnforceQuota_effect in HE as (_ & _ & _ & Hkeep & _). now apply Hkeep.
  - destruct (SetSubtree E dir qid s) as [[r s0]|] eqn:HS; simpl in H;
      simplify_eq.
    apply SetSubtree_mountPoints in HS. simpl. congruence.
  - destruct (SetDiskQuota E dir size quotaID s) as [[r s0]|] eqn:HS;
      simpl in H; simplify_eq.
    simpl. eapply SetDiskQuota_mountPoints; eauto.
  - injection H as <-. now rewrite setQuota_driver.
  - injection H as <-.
    pose proof (GetQuotaIDInFileAttr_effect dir s) as (Hd & _ & _). congruence.
  - injection H as <-. now rewrite SetQuotaIDInFileAttr_driver.
  - injection H as <-. now rewrite SetQuotaIDInFileAttrNoOutput_driver.
  - destruct (GetNextQuotaID E s) as [[r s0]|] eqn:HS; simpl in H;
      simplify_eq.
    apply GetNextQuotaID_mountPoints in HS. simpl. congruence.
  - injection H as <-. now rewrite SetFileAttrRecursive_driver.
  - injection H as <-. exact Hm.
Qed.

Lemma run_calls_keep_cache cs (s s1 : St World) d m :
  run_calls E cs s = Some s1 ->
  mountPoints (driver s) !! d = Some m ->
  mountPoints (driver s1) !! d = Some m.
Proof.
  revert s. induction cs as [|c cs IH]; simpl; intros s H Hm.
  - now injection H as <-.
  - destruct (run_call E c s) as [s0|] eqn:Hc; [|discriminate].
    eapply IH; [exact H|]. eapply run_call_keeps_cache; eauto.
Qed.

End EnforceQuotaFacts.


Section EnforceQuotaClaims.

Context {World : Type}.
Variable E : Env World.

(** C4, amended: once EnforceQuota has returned without error for a
    directory, then after any further calls on the driver, a call of
    EnforceQuota for any directory on the same device whose device-limit
    pre-check succeeds returns the same mountpoint without error, and it
    changes neither the log of commands nor the driver: no remount and no
    activation is run. (The pre-check precedes the cache lookup: without
    it the call fails, see the counterexample.) *)
Theorem EnforceQuota_idempotent dir (s : St World) mp s1 cs s2 dir2 lim w2 :
  EnforceQuota E dir s = ((mp, None), s1) ->
  run_calls E cs s1 = Some s2 ->
  getDevID E dir2 (world s2) = ((getDevID E dir (world s)).1, None) ->
  setDevLimit E dir2 (getDevID E dir (world s)).1 (world s2) = ((lim, None), w2) ->
  EnforceQuota E dir2 s2 = ((mp, None), set_world s2 w2)
  /\ trace (EnforceQuota E dir2 s2).2 = trace s2
  /\ driver (EnforceQuota E dir2 s2).2 = driver s2.
Proof.
  intros HE Hcs Hdev Hlim.
  apply EnforceQuota_effect in HE as (_ & _ & _ & _ & Hcache).
  specialize (Hcache eq_refl).
  eapply run_calls_keep_cache in Hcache; [|exact Hcs].
  rewrite (EnforceQuota_cached E dir2 s2 _ lim w2 mp Hdev Hlim Hcache).
  now simpl.
Qed.

(** C8: when the device is not cached, its mountpoint is resolved, the
    remount (if one is needed) succeeds, the filesystem kind is not xfs
    and quotaon fails with a standard error that contains " File exists",
    EnforceQuota returns the resolved mountpoint with a nil error and the
    cache binds the device to that mountpoint. *)
Theorem EnforceQuota_file_exists dir (s : St World) devID lim w1 mp hasQuota fs
    s2 m fstype r s3 e :
  getDevID E dir (world s) = (devID, None) ->
  setDevLimit E dir devID (world s) = ((lim, None), w1) ->
  mountPoints (driver s) !! devID = None ->
  CheckMountpoint E devID w1 = (mp, hasQuota, fs) ->
  mp <> "" ->
  (if hasQuota then s2 = set_world s w1
   else exists r0,
       Run E ["mount"; "-o"; "remount,prjquota"; mp] (set_world s w1) = (r0, s2)
       /\ run_err r0 = None) ->
  getMountpointFstype E dir (world s2) = (m, fstype, None) ->
  fstype <> xfsFS ->
  Run E ["quotaon"; "-P"; mp] s2 = (r, s3) ->
  run_err r = Some e ->
  Go.Contains (stderr r) " File exists" = true ->
  (EnforceQuota E dir s).1 = (mp, None)
  /\ mountPoints (driver (EnforceQuota E dir s).2) !! devID = Some mp
  /\ world (EnforceQuota E dir s).2 = world s3
  /\ trace (EnforceQuota E dir s).2 = trace s3.
Proof.
  intros Hdev Hlim Hnc Hcm Hmp Hre Hfs Hx Hq He Hc.
  unfold EnforceQuota. rewrite Hdev, Hlim. simpl. rewrite Hnc, Hcm.
  assert (Hlen : (Go.len mp =? 0)%nat = false).
  { apply Nat.eqb_neq. destruct mp; [done|simpl; lia]. }
  rewrite Hlen.
  apply String.eqb_neq in Hx.
  destruct hasQuota; simpl.
  - subst s2. simpl in Hfs. rewrite Hfs, Hx. simpl. rewrite Hq, He, Hc. simpl.
    now rewrite lookup_insert_eq.
  - destruct Hre as (r0 & Hr0 & Hok). rewrite Hr0, Hok, Hfs, Hx. simpl.
    rewrite Hq, He, Hc. simpl. now rewrite lookup_insert_eq.
Qed.

(** C1, amended: when the enablement step has returned a non-empty
    mountpoint without error, the size has been converted and the capacity
    check rejects the requested limit, SetDiskQuota returns the error of
    the capacity check (wrapped) and stops in the state the enablement
    step left: no tagging and no limit-setting command is run and no
    identifier is allocated. The commands run by then are those of the
    enablement step (remount, activation), which precedes the check. *)
Theorem SetDiskQuota_over_budget dir size quotaID (s : St World) mp s1 limit e :
  EnforceQuota E dir s = ((mp, None), s1) ->
  mp <> "" ->
  ToKilobytes E size = (limit, None) ->
  checkDevLimit E dir (Go.wrap64 (limit * 1024)) (world s1) = Some e ->
  SetDiskQuota E dir size quotaID s =
    Some (Some (Wrapped e "failed to check device limit, dir: (%s), limit: (%d)kb"),
          s1)
  /\ (exists cmds, trace s1 = trace s ++ cmds
                  /\ forallb is_enablement_cmd cmds = true)
  /\ quotaIDs (driver s1) = quotaIDs (driver s)
  /\ lastID (driver s1) = lastID (driver s).
Proof.
  intros HE Hmp Hkb Hchk. split.
  - unfold SetDiskQuota. rewrite HE.
    assert (Hlen : (Go.len mp =? 0)%nat = false).
    { apply Nat.eqb_neq. destruct mp; [done|simpl; lia]. }
    rewrite Hlen, Hkb, Hchk. reflexivity.
  - apply EnforceQuota_effect in HE as (Ht & Hq & Hl & _). auto.
Qed.

(** The path of a failed activation in general: when quotaon fails and
    its standard error does not contain " File exists", EnforceQuota
    returns an empty mountpoint with a nil error (the error that is
    wrapped is the nil error of getMountpointFstype) and stores the empty
    mountpoint for the device; from then on a call for a directory on that
    device whose pre-checks pass is answered from the cache, with the
    empty mountpoint, a nil error and no command. *)
Lemma EnforceQuota_failed_activation dir (s : St World) devID lim w1 mp hasQuota
    fs s2 m fstype r s3 e :
  getDevID E dir (world s) = (devID, None) ->
  setDevLimit E dir devID (world s) = ((lim, None), w1) ->
  mountPoints (driver s) !! devID = None ->
  CheckMountpoint E devID w1 = (mp, hasQuota, fs) ->
  mp <> "" ->
  (if hasQuota then s2 = set_world s w1
   else exists r0,
       Run E ["mount"; "-o"; "remount,prjquota"; mp] (set_world s w1) = (r0, s2)
       /\ run_err r0 = None) ->
  getMountpointFstype E dir (world s2) = (m, fstype, None) ->
  fstype <> xfsFS ->
  Run E ["quotaon"; "-P"; mp] s2 = (r, s3) ->
  run_err r = Some e ->
  Go.Contains (stderr r) " File exists" = false ->
  (EnforceQuota E dir s).1 = ("", None)
  /\ mountPoints (driver (EnforceQuota E dir s).2) !! devID = Some ""
  /\ (forall cs s4 dir2 lim2 w2,
        run_calls E cs (EnforceQuota E dir s).2 = Some s4 ->
        getDevID E dir2 (world s4) = (devID, None) ->
        setDevLimit E dir2 devID (world s4) = ((lim2, None), w2) ->
        EnforceQuota E dir2 s4 = (("", None), set_world s4 w2)).
Proof.
  intros Hdev Hlim Hnc Hcm Hmp Hre Hfs Hx Hq He Hc.
  assert (Hfirst : (EnforceQuota E dir s).1 = ("", None)
                   /\ mountPoints (driver (EnforceQuota E dir s).2) !! devID
                      = Some "").
  { unfold EnforceQuota. rewrite Hdev, Hlim. simpl. rewrite Hnc, Hcm.
    assert (Hlen : (Go.len mp =? 0)%nat = false).
    { apply Nat.eqb_neq. destruct mp; [done|simpl; lia]. }
    rewrite Hlen.
    apply String.eqb_neq in Hx.
    destruct hasQuota; simpl.
    - subst s2. simpl in Hfs. rewrite Hfs, Hx. simpl. rewrite Hq, He, Hc. simpl.
      now rewrite lookup_insert_eq.
    - destruct Hre as (r0 & Hr0 & Hok). rewrite Hr0, Hok, Hfs, Hx. simpl.
      rewrite Hq, He, Hc. simpl. now rewrite lookup_insert_eq. }
  destruct Hfirst as [Hres Hcache]. repeat split; [exact Hres|exact Hcache|].
  intros cs s4 dir2 lim2 w2 Hcs Hdev2 Hlim2.
  eapply EnforceQuota_cached; [exact Hdev2|exact Hlim2|].
  eapply run_calls_keep_cache; [exact Hcs|exact Hcache].
Qed.

End EnforceQuotaClaims.

(** C4 as stated fails: after EnforceQuota has succeeded for /data/c1, a
    call for /data/c2 on the same device (42) whose device-limit pre-check
    fails returns an empty mountpoint and an error, not the cached
    mountpoint. *)
Lemma EnforceQuota_idempotent_counterexample :
  let E := Scenario.env Scenario.pouch_mtab Scenario.dev42 ext4FS
             Scenario.all_ok Scenario.only_c1 107374182400 in
  let s1 := (EnforceQuota E "/data/c1" Scenario.init).2 in
  (EnforceQuota E "/data/c1" Scenario.init).1 = ("/home/pouch", None)
  /\ getDevID E "/data/c2" (world s1) = getDevID E "/data/c1" (world Scenario.init)
  /\ (EnforceQuota E "/data/c2" s1).1 =
       ("", Some (Wrapped (Errorf "failed to get path limit")
                    "failed to set device limit, dir: (%s), devID: (%d)"))
  /\ (EnforceQuota E "/data/c2" s1).1.1 <> (EnforceQuota E "/data/c1" Scenario.init).1.1.
Proof. cbv zeta. repeat split; try reflexivity. vm_compute. discriminate. Qed.

(** The scenario of the specification: after EnforceQuota for /data/c1, a
    SetDiskQuota and an allocation, EnforceQuota for /data/c2 on the same
    device returns /home/pouch and runs nothing. *)
Lemma EnforceQuota_idempotent_witness :
  let E := Scenario.pouch in
  let s1 := (EnforceQuota E "/data/c1" Scenario.init).2 in
  let s2 := default s1
              (run_calls E [CallSetDiskQuota "/data/c1" "10G" 0; CallGetNextQuotaID] s1) in
  EnforceQuota E "/data/c2" s2 = (("/home/pouch", None), set_world s2 tt)
  /\ trace (EnforceQuota E "/data/c2" s2).2 = trace s2
  /\ driver (EnforceQuota E "/data/c2" s2).2 = driver s2.
Proof.
  cbv zeta.
  apply (EnforceQuota_idempotent Scenario.pouch "/data/c1" Scenario.init
           "/home/pouch" (EnforceQuota Scenario.pouch "/data/c1" Scenario.init).2
           [CallSetDiskQuota "/data/c1" "10G" 0; CallGetNextQuotaID]
           _ "/data/c2" 107374182400%N tt).
  - reflexivity.
  - vm_compute. reflexivity.
  - reflexivity.
  - reflexivity.
Defined.

(** The scenario of the specification with a quotaon that fails because
    quota is already on. *)
Lemma EnforceQuota_file_exists_witness :
  let E := Scenario.env Scenario.pouch_mtab Scenario.dev42 ext4FS
             (Scenario.quotaon_fails "quotaon: cannot turn on project quota: File exists")
             Scenario.any_dir 107374182400 in
  let s3 := mkSt tt (mkDriver ∅ ∅ 0)
              [["mount"; "-o"; "remount,prjquota"; "/home/pouch"];
               ["quotaon"; "-P"; "/home/pouch"]] in
  (EnforceQuota E "/data/c1" Scenario.init).1 = ("/home/pouch", None)
  /\ mountPoints (driver (EnforceQuota E "/data/c1" Scenario.init).2) !! 42%N
     = Some "/home/pouch"
  /\ world (EnforceQuota E "/data/c1" Scenario.init).2 = world s3
  /\ trace (EnforceQuota E "/data/c1" Scenario.init).2 = trace s3.
Proof.
  cbv zeta.
  apply (EnforceQuota_file_exists
           (Scenario.env Scenario.pouch_mtab Scenario.dev42 ext4FS
              (Scenario.quotaon_fails "quotaon: cannot turn on project quota: File exists")
              Scenario.any_dir 107374182400)
           "/data/c1" Scenario.init 42%N 107374182400%N tt "/home/pouch" false
           "ext4"
           (mkSt tt (mkDriver ∅ ∅ 0)
              [["mount"; "-o"; "remount,prjquota"; "/home/pouch"]])
           "/home/pouch" "ext4"
           (Scenario.failed "quotaon: cannot turn on project quota: File exists")
           (mkSt tt (mkDriver ∅ ∅ 0)
              [["mount"; "-o"; "remount,prjquota"; "/home/pouch"];
               ["quotaon"; "-P"; "/home/pouch"]])
           (Errorf "exit status 1")).
  - reflexivity.
  - reflexivity.
  - reflexivity.
  - reflexivity.
  - discriminate.
  - exists Scenario.ok. split; reflexivity.
  - reflexivity.
  - discriminate.
  - reflexivity.
  - reflexivity.
  - reflexivity.
Defined.

(** The scenario of the specification with a budget of 1 GiB and a
    request for 10G. *)
Lemma SetDiskQuota_over_budget_witness :
  let E := Scenario.pouch_small in
  let s1 := mkSt tt (mkDriver ∅ {[42%N := "/home/pouch"]} 0)
              [["mount"; "-o"; "remount,prjquota"; "/home/pouch"];
               ["quotaon"; "-P"; "/home/pouch"]] in
  SetDiskQuota E "/data/c1" "10G" 0 Scenario.init =
    Some (Some (Wrapped (Errorf "dir quota is bigger than the limit of the device")
                  "failed to check device limit, dir: (%s), limit: (%d)kb"),
          s1)
  /\ (exists cmds, trace s1 = trace Scenario.init ++ cmds
                  /\ forallb is_enablement_cmd cmds = true)
  /\ quotaIDs (driver s1) = quotaIDs (driver Scenario.init)
  /\ lastID (driver s1) = lastID (driver Scenario.init).
Proof.
  cbv zeta.
  apply (SetDiskQuota_over_budget Scenario.pouch_small "/data/c1" "10G" 0%N
           Scenario.init "/home/pouch" _ 10485760%N).
  - reflexivity.
  - discriminate.
  - reflexivity.
  - reflexivity.
Defined.

(** C1 as stated fails: in the scenario of the specification with a budget
    of 1 GiB, SetDiskQuota for 10G on a fresh driver fails with the
    error of the capacity check, but by then the remount and the
    activation have been run. *)
Lemma SetDiskQuota_over_budget_counterexample :
  let E := Scenario.pouch_small in
  checkDevLimit E "/data/c1" (Go.wrap64 (10485760 * 1024)) tt
    = Some (Errorf "dir quota is bigger than the limit of the device")
  /\ (fst <$> SetDiskQuota E "/data/c1" "10G" 0 Scenario.init) =
       Some (Some (Wrapped (Errorf "dir quota is bigger than the limit of the device")
                     "failed to check device limit, dir: (%s), limit: (%d)kb"))
  /\ (trace <$> (snd <$> SetDiskQuota E "/data/c1" "10G" 0 Scenario.init)) =
       Some [["mount"; "-o"; "remount,prjquota"; "/home/pouch"];
             ["quotaon"; "-P"; "/home/pouch"]]
  /\ (trace <$> (snd <$> SetDiskQuota E "/data/c1" "10G" 0 Scenario.init))
       <> Some (trace Scenario.init).
Proof. cbv zeta. repeat split; try reflexivity. vm_compute. discriminate. Qed.

(** C2, the behaviour of the code where the claim fails: quotaon fails
    with a standard error that does not contain " File exists". The first
    call returns an empty mountpoint and a nil error, and the cache binds
    device 42 to the empty mountpoint. A second call for a directory on
    the same device returns the cached empty mountpoint with a nil error
    and runs nothing: the log still holds the two commands of the first
    call, enablement is not retried. *)
Lemma EnforceQuota_failed_activation_cached :
  let E := Scenario.env Scenario.pouch_mtab Scenario.dev42 ext4FS
             (Scenario.quotaon_fails "quotaon: Cannot find mountpoint for device /dev/sdb1")
             Scenario.any_dir 107374182400 in
  let s1 := (EnforceQuota E "/data/c1" Scenario.init).2 in
  let s2 := (EnforceQuota E "/data/c2" s1).2 in
  (EnforceQuota E "/data/c1" Scenario.init).1 = ("", None)
  /\ mountPoints (driver s1) !! 42%N = Some ""
  /\ trace s1 = [["mount"; "-o"; "remount,prjquota"; "/home/pouch"];
                 ["quotaon"; "-P"; "/home/pouch"]]
  /\ (EnforceQuota E "/data/c2" s1).1 = ("", None)
  /\ trace s2 = trace s1
  /\ mountPoints (driver s2) !! 42%N = Some "".
Proof. cbv zeta. repeat split; reflexivity. Qed.

(** ** Binding a subtree and setting the limit *)

Section BinderFacts.

Context {World : Type}.
Variable E : Env World.

(** C9: when the tag reader reports a nonzero identifier for the
    directory, SetSubtree with a requested identifier 0 returns that
    identifier with a nil error. The driver is left as it was (the
    allocator would have added an identifier and moved the marker), and
    the only command run is the lsattr of the tag reader: the world is the
    one that command leaves, and no tagging command is in the log. *)
Theorem SetSubtree_reuses_tag dir (s : St World) :
  (GetQuotaIDInFileAttr E dir s).1 <> 0%N ->
  SetSubtree E dir 0 s =
    Some (((GetQuotaIDInFileAttr E dir s).1, None), (GetQuotaIDInFileAttr E dir s).2)
  /\ driver (GetQuotaIDInFileAttr E dir s).2 = driver s
  /\ trace (GetQuotaIDInFileAttr E dir s).2
     = trace s ++ [["lsattr"; "-p"; Go.Dir dir]]
  /\ world (GetQuotaIDInFileAttr E dir s).2
     = (exec_Run E ["lsattr"; "-p"; Go.Dir dir] (world s)).2.
Proof.
  intros Hid. split; [|apply GetQuotaIDInFileAttr_effect].
  unfold SetSubtree. simpl.
  destruct (GetQuotaIDInFileAttr E dir s) as [id s1]. simpl in *.
  assert (Hpos : (0 <? id)%N = true) by (apply N.ltb_lt; lia).
  now rewrite Hpos.
Qed.

(** C10: SetFileAttrRecursive runs chattr -R -p <id> +P <dir> and nothing
    else, whatever the filesystem kind of the directory; the binders that
    are not recursive (SetQuotaIDInFileAttr and the second half of
    SetSubtree) look up the filesystem kind and run xfs_quota for xfs and
    chattr otherwise, or nothing when the lookup fails. *)
Theorem SetFileAttrRecursive_always_chattr dir quotaID (s : St World) :
  trace (SetFileAttrRecursive E dir quotaID s).2
    = trace s ++ [["chattr"; "-R"; "-p"; Go.FormatUint quotaID; "+P"; dir]]
  /\ trace (SetQuotaIDInFileAttr E dir quotaID s).2
     = trace s ++
       match getMountpointFstype E dir (world s) with
       | (_, fstype, None) =>
           if String.eqb fstype xfsFS then
             [["xfs_quota"; "-x"; "-c";
               ("project -s -p " ++ dir ++ " " ++ Go.FormatUint quotaID)%string]]
           else [["chattr"; "-p"; Go.FormatUint quotaID; "+P"; dir]]
       | (_, _, Some _) => []
       end
  /\ trace (bind_subtree E dir quotaID s).2
     = trace s ++
       match getMountpointFstype E dir (world s) with
       | (_, fstype, None) =>
           if String.eqb fstype xfsFS then
             [["xfs_quota"; "-x"; "-c";
               ("project -s -p " ++ dir ++ " " ++ Go.FormatUint quotaID)%string]]
           else [["chattr"; "-p"; Go.FormatUint quotaID; "+P"; dir]]
       | (_, _, Some _) => []
       end.
Proof.
  unfold SetFileAttrRecursive, SetQuotaIDInFileAttr, bind_subtree.
  repeat split.
  - destruct (Run E _ s) as [r s1] eqn:HR. apply Run_inv in HR as (Ht & _).
    simpl. now rewrite Ht.
  - destruct (getMountpointFstype E dir (world s)) as [[m fstype] [e|]];
      [simpl; now rewrite app_nil_r|].
    destruct (String.eqb fstype xfsFS); simpl;
      destruct (Run E _ s) as [r s1] eqn:HR; apply Run_inv in HR as (Ht & _);
      simpl; now rewrite Ht.
  - destruct (getMountpointFstype E dir (world s)) as [[m fstype] [e|]];
      [simpl; now rewrite app_nil_r|].
    destruct (String.eqb fstype xfsFS); simpl;
      destruct (Run E _ s) as [r s1] eqn:HR; apply Run_inv in HR as (Ht & _);
      simpl; now rewrite Ht.
Qed.

(** C6, amended: setQuota looks up the filesystem kind of the mountpoint
    and runs one command. For a kind other than xfs it is
    setquota -P <id> 0 <limit> 0 0 <mountpoint>: the hard block limit is
    the requested limit, the soft block limit and both inode limits are 0.
    For xfs it is xfs_quota -x -c 'limit -p bhard=<limit>k <id>'
    <mountpoint>, which names the hard block limit only. When the lookup
    fails no command is run. *)
Theorem setQuota_command quotaID blockLimit mountPoint (s : St World) :
  trace (setQuota E quotaID blockLimit mountPoint s).2
    = trace s ++
      match getMountpointFstype E mountPoint (world s) with
      | (_, fstype, None) =>
          if String.eqb fstype xfsFS then
            [["xfs_quota"; "-x"; "-c";
              ("limit -p bhard=" ++ Go.FormatUint blockLimit ++ "k "
               ++ Go.FormatUint quotaID)%string;
              mountPoint]]
          else
            [["setquota"; "-P"; Go.FormatUint quotaID; "0";
              Go.FormatUint blockLimit; "0"; "0"; mountPoint]]
      | (_, _, Some _) => []
      end.
Proof.
  unfold setQuota.
  destruct (getMountpointFstype E mountPoint (world s)) as [[m fstype] [e|]];
    [simpl; now rewrite app_nil_r|].
  destruct (String.eqb fstype xfsFS); simpl;
    destruct (Run E _ s) as [r s1] eqn:HR; apply Run_inv in HR as (Ht & _);
    simpl; now rewrite Ht.
Qed.

End BinderFacts.

(** The scenario of the specification where lsattr reports the tag
    16777256 on /data/c1. *)
Lemma SetSubtree_reuses_tag_witness :
  let E := Scenario.env Scenario.pouch_mtab Scenario.dev42 ext4FS
             Scenario.lsattr_tagged Scenario.any_dir 107374182400 in
  SetSubtree E "/data/c1" 0 Scenario.init =
    Some ((16777256%N, None), mkSt tt (mkDriver ∅ ∅ 0) [["lsattr"; "-p"; "/data"]])
  /\ driver (GetQuotaIDInFileAttr E "/data/c1" Scenario.init).2
     = driver Scenario.init
  /\ trace (GetQuotaIDInFileAttr E "/data/c1" Scenario.init).2
     = trace Scenario.init ++ [["lsattr"; "-p"; Go.Dir "/data/c1"]]
  /\ world (GetQuotaIDInFileAttr E "/data/c1" Scenario.init).2
     = (exec_Run E ["lsattr"; "-p"; Go.Dir "/data/c1"] (world Scenario.init)).2.
Proof.
  cbv zeta.
  apply (SetSubtree_reuses_tag
           (Scenario.env Scenario.pouch_mtab Scenario.dev42 ext4FS
              Scenario.lsattr_tagged Scenario.any_dir 107374182400)
           "/data/c1" Scenario.init).
  vm_compute. discriminate.
Defined.

(** C6 as stated fails: on the ext4 mount of the scenario, the command
    setQuota runs for the limit 10485760 has 0 in the position of the soft
    block limit, not the requested limit. *)
Lemma setQuota_command_counterexample :
  let s1 := (setQuota Scenario.pouch 16777217 10485760 "/home/pouch" Scenario.init).2 in
  trace s1 = [["setquota"; "-P"; "16777217"; "0"; "10485760"; "0"; "0"; "/home/pouch"]]
  /\ (forall cmd, In cmd (trace s1) ->
        setquota_hard_block cmd = Go.FormatUint 10485760
        /\ setquota_soft_inode cmd = "0"
        /\ setquota_hard_inode cmd = "0"
        /\ setquota_soft_block cmd = "0"
        /\ setquota_soft_block cmd <> Go.FormatUint 10485760
        /\ setquota_soft_block cmd <> setquota_hard_block cmd).
Proof.
  cbv zeta. split; [reflexivity|].
  intros cmd Hin. vm_compute in Hin. destruct Hin as [<-|[]].
  repeat split; try reflexivity; vm_compute; discriminate.
Qed.

(** C7, the behaviour of the code where the claim fails: with the table
    [stacked_mtab] and both mountpoints on device 2065, CheckMountpoint
    returns the mountpoint /mnt with the quota flag set, although the
    options of the entry of /mnt do not contain prjquota: the flag was set
    by the entry of /mnt/a, which the loop selected first, and it is not
    cleared when a shorter mountpoint replaces it. *)
Lemma CheckMountpoint_stale_quota_flag :
  let E := Scenario.env Scenario.stacked_mtab Scenario.dev2065 ext4FS
             Scenario.all_ok Scenario.any_dir 0 in
  CheckMountpoint E 2065 tt = ("/mnt", true, "ext4")
  /\ matching_entries E 2065 tt Scenario.stacked_mtab
     = ["/dev/sda1 /mnt/a ext4 rw,relatime,prjquota 0 0";
        "/dev/sdb1 /mnt ext4 rw,relatime 0 0"]
  /\ (forall line, In line (matching_entries E 2065 tt Scenario.stacked_mtab) ->
        entry_mountpoint line = "/mnt" ->
        has_prjquota (entry_options line) = false).
Proof.
  cbv zeta. split; [reflexivity|]. split; [reflexivity|].
  intros line Hin. vm_compute in Hin.
  destruct Hin as [<-|[<-|[]]]; vm_compute; [discriminate|reflexivity].
Qed.


(** ** The identifier allocator *)

Section AllocatorFacts.

Context {World : Type}.
Variable E : Env World.

Lemma next_candidate_below id B :
  (id < B)%N -> (QuotaMinID E < B)%N -> (B < 2 ^ 32)%N ->
  (id < next_candidate E id)%N /\ (QuotaMinID E < next_candidate E id)%N
  /\ (next_candidate E id <= B)%N.
Proof.
  intros Hid Hmin HB. unfold next_candidate, Go.wrap32.
  destruct (id <? QuotaMinID E)%N eqn:Hlt.
  - apply N.ltb_lt in Hlt. rewrite N.mod_small by lia. lia.
  - apply N.ltb_ge in Hlt. rewrite N.mod_small by lia. lia.
Qed.

(** Below the wrap-around the loop ends, within as many rounds as the set
    has members above the start plus one, on an identifier that is not in
    the set and is above the start and the floor. *)
Lemma scan_below fuel (ids : gset N) id B :
  (forall x, x ∈ ids -> (x < B)%N) ->
  (B < 2 ^ 32)%N -> (id < B)%N -> (QuotaMinID E < B)%N ->
  size (filter (fun x => (id < x)%N) ids) < fuel ->
  exists r, scan E fuel ids id = Some r
            /\ (r ∉ ids) /\ (id < r)%N /\ (QuotaMinID E < r)%N /\ (r <= B)%N.
Proof.
  intros Hids HB. revert id.
  induction fuel as [|fuel IH]; intros id Hid Hmin Hsize; [lia|].
  destruct (next_candidate_below id B Hid Hmin HB) as (Hgt & Hfl & Hle).
  simpl. destruct (decide (next_candidate E id ∈ ids)) as [Hin|Hout].
  - destruct (IH (next_candidate E id)) as (r & Hr & Hnot & Hlt & Hflr & Hrle).
    + now apply Hids.
    + exact Hmin.
    + assert (Hsub : filter (fun x => (next_candidate E id < x)%N) ids
                     ⊂ filter (fun x => (id < x)%N) ids).
      { apply strict_spec_alt. split.
        - intros x [Hx Hxin]%elem_of_filter. apply elem_of_filter. split; [lia|done].
        - intros Heq. 
          assert (Hc : next_candidate E id ∈ filter (fun x => (id < x)%N) ids)
            by (apply elem_of_filter; split; [lia|done]).
          rewrite <- Heq in Hc. apply elem_of_filter in Hc as [Hc _]. lia. }
      apply subset_size in Hsub. lia.
    + exists r. repeat split; try done. lia.
  - exists (next_candidate E id). repeat split; done.
Qed.

(** One call below the wrap-around: it returns, the identifier is above
    the floor and was not in the set the scan started from, the set gains
    exactly that identifier, the marker is that identifier, and the bound
    moves up by one. *)
Lemma GetNextQuotaID_below (s : St World) ids last w B :
  lazy_load E s = (ids, last, None, w) ->
  below E B ids last ->
  (B < 2 ^ 32)%N ->
  exists id s1,
    GetNextQuotaID E s = Some ((id, None), s1)
    /\ (id ∉ ids) /\ (QuotaMinID E < id)%N /\ (last < id)%N
    /\ quotaIDs (driver s1) = {[id]} ∪ ids
    /\ lastID (driver s1) = id
    /\ below E (B + 1) (quotaIDs (driver s1)) (lastID (driver s1)).
Proof.
  intros Hload (Hids & Hlast & Hmin) HB.
  destruct (scan_below (S (size ids)) ids last B Hids HB Hlast Hmin)
    as (r & Hr & Hnot & Hlt & Hfl & Hle).
  { pose proof (subseteq_size (filter (fun x => (last < x)%N) ids) ids) as Hs.
    assert (filter (fun x => (last < x)%N) ids ⊆ ids)
      by (intros x [_ Hx]%elem_of_filter; done).
    specialize (Hs H). lia. }
  unfold GetNextQuotaID. rewrite Hload, Hr.
  eexists _, _. split; [reflexivity|]. simpl.
  repeat split; try done; try lia.
  intros x [->%elem_of_singleton|Hx]%elem_of_union; [lia|].
  specialize (Hids x Hx). lia.
Qed.

(** After a call that returned an identifier above the floor the marker
    is not 0: the next call scans from the state the driver holds. *)
Lemma lazy_load_seeded (s : St World) :
  lastID (driver s) <> 0%N ->
  lazy_load E s = (quotaIDs (driver s), lastID (driver s), None, world s).
Proof.
  intros Hne. unfold lazy_load.
  apply N.eqb_neq in Hne. now rewrite Hne.
Qed.

(** X12: any number of calls that stay below the wrap-around. When the
    set and the marker the first call starts from and the floor are below
    a bound [B] and [B] plus the number of calls does not exceed 2^32, all
    calls return, and the identifiers they return are pairwise distinct,
    above the floor, and none was in the set before the first call. *)
Lemma allocate_below n : forall (s : St World) ids last w B,
  lazy_load E s = (ids, last, None, w) ->
  below E B ids last ->
  (B + N.of_nat n <= 2 ^ 32)%N ->
  exists got s1,
    allocate E n s = Some (got, s1)
    /\ length got = n
    /\ NoDup got
    /\ Forall (fun id => (QuotaMinID E < id)%N /\ id ∉ ids) got.
Proof.
  induction n as [|n IH]; intros s ids last w B Hload Hbelow HB.
  - exists [], s. repeat split; [constructor|constructor].
  - destruct (GetNextQuotaID_below s ids last w B Hload Hbelow)
      as (id & s1 & Hcall & Hnot & Hfl & Hlt & Hset & Hlast & Hbelow1); [lia|].
    assert (Hseed : lazy_load E s1
                    = (quotaIDs (driver s1), lastID (driver s1), None, world s1)).
    { apply lazy_load_seeded. rewrite Hlast. lia. }
    destruct (IH s1 _ _ _ (B + 1)%N Hseed Hbelow1) as (got & s2 & Hrest & Hlen & Hnd & Hall);
      [lia|].
    exists (id :: got), s2. simpl. rewrite Hcall, Hrest.
    rewrite Hset in Hall.
    repeat split.
    + simpl. now rewrite Hlen.
    + constructor; [|exact Hnd].
      intros Hin. rewrite List.Forall_forall in Hall.
      apply list_elem_of_In in Hin. destruct (Hall _ Hin) as [_ Hout].
      apply Hout. apply elem_of_union. left. now apply elem_of_singleton.
    + constructor; [done|].
      eapply List.Forall_impl; [|exact Hall]. simpl.
      intros x [Hx Hout]. split; [done|].
      intros Hxin. apply Hout. apply elem_of_union. now right.
Qed.

End AllocatorFacts.

(** A list with more entries than the set that holds them all repeats an
    entry. *)
Lemma list_in_set_repeats (l : list N) : forall (X : gset N),
  (forall x, x ∈ l -> x ∈ X) ->
  size X < length l ->
  exists i j x, i < j /\ l !! i = Some x /\ l !! j = Some x.
Proof.
  induction l as [|a l IH]; intros X Hall Hsize; [simpl in Hsize; lia|].
  destruct (decide (a ∈ l)) as [Hin|Hout].
  - apply list_elem_of_lookup in Hin as [j Hj].
    exists 0, (S j), a. repeat split; [lia|done].
  - destruct (IH (X ∖ {[a]})) as (i & j & x & Hij & Hi & Hj).
    + intros x Hx. apply elem_of_difference. split.
      * apply Hall. now right.
      * intros ->%elem_of_singleton. done.
    + assert (Ha : a ∈ X) by (apply Hall; now left).
      rewrite size_difference by (now apply singleton_subseteq_l).
      rewrite size_singleton. simpl in Hsize.
      assert (0 < size X); [|lia].
      destruct (decide (size X = 0)) as [Hz|Hz]; [|lia].
      apply size_empty_inv in Hz. apply Hz in Ha.
      now apply not_elem_of_empty in Ha.
    + exists (S i), (S j), x. repeat split; [lia|done|done].
Qed.

Section LoopFuel.

Context {World : Type}.
Variable E : Env World.

(** The loop runs out of [fuel] rounds exactly when the first [fuel]
    identifiers it tests are all in the set. *)
Lemma scan_None_iff fuel ids : forall id,
  scan E fuel ids id = None <->
  (forall k, 1 <= k <= fuel -> Nat.iter k (next_candidate E) id ∈ ids).
Proof.
  induction fuel as [|fuel IH]; intros id.
  - split; [intros _ k Hk; lia|reflexivity].
  - simpl. destruct (decide (next_candidate E id ∈ ids)) as [Hin|Hout].
    + rewrite IH. split.
      * intros H k Hk. destruct k as [|k]; [lia|].
        destruct k as [|k]; [exact Hin|].
        rewrite Nat.iter_succ_r. apply H. lia.
      * intros H k Hk. rewrite <- Nat.iter_succ_r. apply H. lia.
    + split; [discriminate|].
      intros H. exfalso. apply Hout. apply (H 1). lia.
Qed.

(** When one round more than the set has members is not enough, no
    number of rounds is: the identifiers the loop tests have come back to
    one they tested before, and from there on they repeat. The Go loop
    does not end. *)
Lemma scan_None_forever ids id :
  scan E (S (size ids)) ids id = None ->
  forall fuel, scan E fuel ids id = None.
Proof.
  intros Hnone fuel. apply scan_None_iff. intros k [Hk _].
  rewrite scan_None_iff in Hnone.
  set (it := fun k => Nat.iter k (next_candidate E) id) in *.
  destruct (list_in_set_repeats (map it (seq 1 (S (size ids)))) ids)
    as (i & j & x & Hij & Hi & Hj).
  - intros y Hy. apply list_elem_of_In, in_map_iff in Hy as (n & <- & Hn).
    apply in_seq in Hn. apply Hnone. lia.
  - rewrite length_map, length_seq. lia.
  - rewrite list_lookup_fmap in Hi, Hj.
    destruct (seq 1 (S (size ids)) !! i) as [a|] eqn:Ha; [|discriminate].
    destruct (seq 1 (S (size ids)) !! j) as [b|] eqn:Hb; [|discriminate].
    apply lookup_seq in Ha as [-> Hia]. apply lookup_seq in Hb as [-> Hjb].
    simpl in Hi, Hj. injection Hi as Hi. injection Hj as Hj.
    assert (Hper : forall m, it (1 + i + m) = it (1 + j + m)).
    { induction m as [|m IHm].
      - rewrite !Nat.add_0_r.
        change (next_candidate E (it i) = next_candidate E (it j)). congruence.
      - rewrite !Nat.add_succ_r.
        change (next_candidate E (it (1 + i + m))
                = next_candidate E (it (1 + j + m))).
        now rewrite IHm. }
    induction k as [k IHk] using lt_wf_ind.
    destruct (le_lt_dec k (S (size ids))) as [Hsmall|Hbig].
    + apply Hnone. lia.
    + change (it k ∈ ids).
      replace k with (1 + j + (k - (1 + j))) by lia.
      rewrite <- Hper. apply IHk; lia.
Qed.

End LoopFuel.

(** C3, the behaviour of the code where the claim fails: with the marker
    at 4294967295 the increment wraps to 0, which is not in the set, so
    GetNextQuotaID returns 0, an identifier below QuotaMinID, and sets the
    marker to 0. The marker 0 makes the next call load the set again: the
    identifier 16777217, held by the driver before, is no longer in the
    set and is returned. *)
Lemma GetNextQuotaID_wraps_to_zero :
  let E := Scenario.pouch in
  let s1 := default Scenario.at_top (snd <$> GetNextQuotaID E Scenario.at_top) in
  (fst <$> GetNextQuotaID E Scenario.at_top) = Some (0%N, None)
  /\ (0 < QuotaMinID E)%N
  /\ lastID (driver s1) = 0%N
  /\ 16777217%N ∈ quotaIDs (driver Scenario.at_top)
  /\ (fst <$> GetNextQuotaID E s1) = Some (16777217%N, None).
Proof.
  cbv zeta.
  split; [reflexivity|]. split; [reflexivity|]. split; [reflexivity|].
  split; [|reflexivity].
  unfold Scenario.at_top. simpl. set_solver.
Qed.

(** The same wrap-around from a fresh driver, on a host where the loaded
    marker is 4294967295: the first call returns 0 and leaves the marker
    at 0, so the second call loads again and returns 0 again. *)
Lemma GetNextQuotaID_returns_zero_twice :
  let E := Scenario.pouch_top in
  let s1 := default Scenario.init (snd <$> GetNextQuotaID E Scenario.init) in
  (fst <$> GetNextQuotaID E Scenario.init) = Some (0%N, None)
  /\ (fst <$> GetNextQuotaID E s1) = Some (0%N, None).
Proof. cbv zeta. split; reflexivity. Qed.


(** ** More on CheckMountpoint *)

Section CheckMountpointMore.

Context {World : Type}.
Variable E : Env World.

(** Lines that are not a match leave the loop as it was: the result is
    that of the loop over the matching lines alone. *)
Lemma scan_only_matching devID w lines : forall acc,
  fold_left (check_line E devID w) lines acc
  = fold_left (check_line E devID w)
      (List.filter (entry_matches E devID w) lines) acc.
Proof.
  induction lines as [|line lines IH]; intros [[mp q] fs]; [reflexivity|].
  cbn [fold_left List.filter].
  destruct (entry_matches E devID w line) eqn:Hm.
  - cbn [fold_left]. apply IH.
  - rewrite check_line_eq, Hm. apply IH.
Qed.

(** X1: when the mount table cannot be read, or no line of it is a match
    for the device, CheckMountpoint returns the empty mountpoint, the flag
    unset and the empty filesystem kind. *)
Theorem CheckMountpoint_no_match devID w :
  match ReadFile E (procMountFile E) w with
  | (output, None) => matching_entries E devID w output = []
  | (_, Some _) => True
  end ->
  CheckMountpoint E devID w = ("", false, "").
Proof.
  unfold CheckMountpoint, matching_entries.
  destruct (ReadFile E (procMountFile E) w) as [output [e|]]; [reflexivity|].
  intros Hnone. rewrite scan_only_matching, Hnone. reflexivity.
Qed.

(** X2: when exactly one line of the mount table is a match for the
    device, CheckMountpoint returns the mountpoint and the filesystem kind
    of that line, and the flag tells whether its options hold prjquota. *)
Theorem CheckMountpoint_single_match devID w output line :
  ReadFile E (procMountFile E) w = (output, None) ->
  matching_entries E devID w output = [line] ->
  CheckMountpoint E devID w
  = (entry_mountpoint line, has_prjquota (entry_options line), entry_fstype line).
Proof.
  unfold CheckMountpoint, matching_entries. intros -> Hone.
  assert (Hm : entry_matches E devID w line = true).
  { assert (Hin : In line (List.filter (entry_matches E devID w)
                             (Go.Split output "010")))
      by (rewrite Hone; now left).
    now apply filter_In in Hin. }
  rewrite scan_only_matching, Hone. cbn [fold_left].
  rewrite check_line_eq, Hm. reflexivity.
Qed.

(** The loop over the lines keeps: either nothing was selected, or the
    mountpoint and the kind are those of one matching line of a supported
    kind whose prjquota option, if it has one, has set the flag; and a
    flag that is set was set by some matching line. *)
Lemma scan_result_invariant devID w lines :
  let r := fold_left (check_line E devID w) lines ("", false, "") in
  (r = ("", false, "")
   \/ exists line, In line (List.filter (entry_matches E devID w) lines)
        /\ entry_mountpoint line = r.1.1
        /\ entry_fstype line = r.2
        /\ supported_fs r.2 = true
        /\ (has_prjquota (entry_options line) = true -> r.1.2 = true))
  /\ (r.1.2 = true ->
      exists line, In line (List.filter (entry_matches E devID w) lines)
        /\ has_prjquota (entry_options line) = true).
Proof.
  induction lines as [|line lines IH] using rev_ind; [simpl; split; [now left|done]|].
  cbv zeta in *. rewrite fold_left_app, List.filter_app. simpl.
  destruct (fold_left (check_line E devID w) lines ("", false, "")) as [[mp q] fs].
  rewrite check_line_eq. simpl in IH. destruct IH as [IH1 IH2].
  destruct (entry_matches E devID w line) eqn:Hm; simpl.
  - assert (Hsup : supported_fs (entry_fstype line) = true).
    { unfold entry_matches in Hm.
      apply andb_prop in Hm as [Hm _]. now apply andb_prop in Hm as [_ Hm]. }
    destruct (negb (String.eqb mp "")
              && (Go.len mp <? Go.len (entry_mountpoint line))%nat); simpl.
    + split.
      * destruct IH1 as [IH1|(l & Hl & H1 & H2 & H3 & H4)]; [now left|].
        right. exists l. repeat split; try done.
        apply in_or_app. now left.
      * intros Hq. destruct (IH2 Hq) as (l & Hl & Hp).
        exists l. split; [apply in_or_app; now left|done].
    + split.
      * right. exists line. repeat split; try done.
        -- apply in_or_app. right. now left.
        -- intros ->. now rewrite orb_true_r.
      * intros Hq. apply orb_prop in Hq as [Hq|Hq].
        -- destruct (IH2 Hq) as (l & Hl & Hp).
           exists l. split; [apply in_or_app; now left|done].
        -- exists line. split; [apply in_or_app; right; now left|done].
  - rewrite app_nil_r. split; [exact IH1|exact IH2].
Qed.

(** X3: what CheckMountpoint returns comes from the matching lines.
    Either it is the empty answer, or some matching line has the returned
    mountpoint and the returned filesystem kind, that kind is one of
    xfs, ext3, ext4, and the flag is set if that line holds prjquota.
    Whenever the flag is set, some matching line holds prjquota. *)
Theorem CheckMountpoint_result_sound devID w output :
  ReadFile E (procMountFile E) w = (output, None) ->
  let r := CheckMountpoint E devID w in
  (r = ("", false, "")
   \/ exists line, In line (matching_entries E devID w output)
        /\ entry_mountpoint line = r.1.1
        /\ entry_fstype line = r.2
        /\ supported_fs r.2 = true
        /\ (has_prjquota (entry_options line) = true -> r.1.2 = true))
  /\ (r.1.2 = true ->
      exists line, In line (matching_entries E devID w output)
        /\ has_prjquota (entry_options line) = true).
Proof.
  intros Hread. unfold CheckMountpoint, matching_entries. rewrite Hread.
  apply scan_result_invariant.
Qed.

End CheckMountpointMore.

(** No supported filesystem in the table: the empty answer. *)
Lemma CheckMountpoint_no_match_witness :
  CheckMountpoint
    (Scenario.env Scenario.tmpfs_mtab Scenario.dev42 ext4FS Scenario.all_ok
       Scenario.any_dir 0) 42 tt = ("", false, "").
Proof.
  apply (CheckMountpoint_no_match
           (Scenario.env Scenario.tmpfs_mtab Scenario.dev42 ext4FS Scenario.all_ok
              Scenario.any_dir 0) 42%N tt).
  vm_compute. reflexivity.
Defined.

(** The table of the comment above CheckMountpoint, queried for the
    device of /home/pouch. *)
Lemma CheckMountpoint_single_match_witness :
  CheckMountpoint
    (Scenario.env Scenario.comment_mtab Scenario.dev_by_prefix ext4FS
       Scenario.all_ok Scenario.any_dir 0) 42 tt
  = (entry_mountpoint "/dev/sdb1 /home/pouch ext4 rw,relatime,prjquota,data=ordered 0 0",
     has_prjquota
       (entry_options "/dev/sdb1 /home/pouch ext4 rw,relatime,prjquota,data=ordered 0 0"),
     entry_fstype "/dev/sdb1 /home/pouch ext4 rw,relatime,prjquota,data=ordered 0 0").
Proof.
  apply (CheckMountpoint_single_match
           (Scenario.env Scenario.comment_mtab Scenario.dev_by_prefix ext4FS
              Scenario.all_ok Scenario.any_dir 0) 42%N tt Scenario.comment_mtab).
  - reflexivity.
  - vm_compute. reflexivity.
Defined.

Lemma CheckMountpoint_result_sound_witness :
  let E := Scenario.env Scenario.stacked_mtab Scenario.dev2065 ext4FS
             Scenario.all_ok Scenario.any_dir 0 in
  let r := CheckMountpoint E 2065 tt in
  (r = ("", false, "")
   \/ exists line, In line (matching_entries E 2065 tt Scenario.stacked_mtab)
        /\ entry_mountpoint line = r.1.1
        /\ entry_fstype line = r.2
        /\ supported_fs r.2 = true
        /\ (has_prjquota (entry_options line) = true -> r.1.2 = true))
  /\ (r.1.2 = true ->
      exists line, In line (matching_entries E 2065 tt Scenario.stacked_mtab)
        /\ has_prjquota (entry_options line) = true).
Proof.
  apply (CheckMountpoint_result_sound
           (Scenario.env Scenario.stacked_mtab Scenario.dev2065 ext4FS
              Scenario.all_ok Scenario.any_dir 0) 2065%N tt Scenario.stacked_mtab).
  reflexivity.
Defined.


(** ** More on EnforceQuota *)

Section EnforceQuotaMore.

Context {World : Type}.
Variable E : Env World.

(** X4: what one call of EnforceQuota can touch. It runs at most two
    commands, each a remount with the project-quota option or a quotaon;
    it leaves the identifier set and the marker alone; it leaves the cache
    entries of every other device alone, and an entry it finds for the
    device of the directory stays as it is. *)
Theorem EnforceQuota_footprint dir (s : St World) :
  let r := EnforceQuota E dir s in
  (exists cmds, trace r.2 = trace s ++ cmds
                /\ forallb is_enablement_cmd cmds = true
                /\ length cmds <= 2)
  /\ quotaIDs (driver r.2) = quotaIDs (driver s)
  /\ lastID (driver r.2) = lastID (driver s)
  /\ (forall d, d <> (getDevID E dir (world s)).1 ->
        mountPoints (driver r.2) !! d = mountPoints (driver s) !! d)
  /\ (forall m, mountPoints (driver s) !! (getDevID E dir (world s)).1 = Some m ->
        mountPoints (driver r.2) !! (getDevID E dir (world s)).1 = Some m).
Proof.
  cbv zeta. destruct (EnforceQuota E dir s) as [[mp err] s1] eqn:H.
  unfold EnforceQuota in H.
  repeat case_match; simplify_eq; simpl in *.
  all: repeat match goal with
         | H : Run _ _ _ = (_, _) |- _ =>
             apply Run_inv in H; destruct H as (? & ? & _)
         end; simpl in *.
  all: repeat match goal with
         | H : trace _ = _ |- _ => rewrite H; clear H
         | H : driver _ = _ |- _ => rewrite H; clear H
         end; simpl.
  all: rewrite <- ?app_assoc.
  all: split;
    [first [ by exists []; rewrite app_nil_r; repeat split; simpl; lia
           | eexists; split; [reflexivity|split; [reflexivity|simpl; lia]] ]|].
  all: repeat split; try done.
  all: intros; simplify_map_eq; done.
Qed.

(** X5: when the device is not cached and the resolver finds no
    mountpoint for it, EnforceQuota fails with the "mountPoint not found"
    error; no command is run and the cache is not written, so the next
    call resolves again. *)
Theorem EnforceQuota_no_mountpoint dir (s : St World) devID lim w1 :
  getDevID E dir (world s) = (devID, None) ->
  setDevLimit E dir devID (world s) = ((lim, None), w1) ->
  mountPoints (driver s) !! devID = None ->
  (CheckMountpoint E devID w1).1.1 = "" ->
  EnforceQuota E dir s
  = (("", Some (Errorf "mountPoint not found for the device on which dir (%s) lies")),
     set_world s w1).
Proof.
  intros Hdev Hlim Hnc Hmp. unfold EnforceQuota.
  rewrite Hdev, Hlim. simpl. rewrite Hnc.
  destruct (CheckMountpoint E devID w1) as [[mp q] fs]. simpl in Hmp. subst mp.
  reflexivity.
Qed.

(** X6: when the remount fails, EnforceQuota returns the empty
    mountpoint and the error of the remount, wrapped; quotaon is not run
    and the device is not entered in the cache, so the next call tries the
    enablement again. *)
Theorem EnforceQuota_remount_failure dir (s : St World) devID lim w1 mp fs r0 w2 e :
  getDevID E dir (world s) = (devID, None) ->
  setDevLimit E dir devID (world s) = ((lim, None), w1) ->
  mountPoints (driver s) !! devID = None ->
  CheckMountpoint E devID w1 = (mp, false, fs) ->
  mp <> "" ->
  exec_Run E ["mount"; "-o"; "remount,prjquota"; mp] w1 = (r0, w2) ->
  run_err r0 = Some e ->
  EnforceQuota E dir s
  = (("", Some (Wrapped e "failed to remount prjquota, mountpoint: (%s), stdout: (%s), stderr: (%s), exit: (%d)")),
     mkSt w2 (driver s) (trace s ++ [["mount"; "-o"; "remount,prjquota"; mp]]))
  /\ mountPoints (driver (EnforceQuota E dir s).2) !! devID = None.
Proof.
  intros Hdev Hlim Hnc Hcm Hmp Hrun He.
  assert (Hcall : EnforceQuota E dir s
    = (("", Some (Wrapped e "failed to remount prjquota, mountpoint: (%s), stdout: (%s), stderr: (%s), exit: (%d)")),
       mkSt w2 (driver s) (trace s ++ [["mount"; "-o"; "remount,prjquota"; mp]]))).
  { unfold EnforceQuota. rewrite Hdev, Hlim. simpl. rewrite Hnc, Hcm.
    assert (Hlen : (Go.len mp =? 0)%nat = false).
    { apply Nat.eqb_neq. destruct mp; [done|simpl; lia]. }
    rewrite Hlen. simpl. unfold Run. simpl. rewrite Hrun, He. reflexivity. }
  rewrite Hcall. split; [reflexivity|exact Hnc].
Qed.

(** X7: the enablement when every step succeeds. With the device not
    cached and its mountpoint resolved, EnforceQuota runs the remount
    unless the mount already has the prjquota option, then quotaon unless
    the filesystem kind is xfs, in that order and nothing else; it returns
    the resolved mountpoint without error and enters it in the cache. *)
Theorem EnforceQuota_enables dir (s : St World) devID lim w1 mp hasQuota fs
    w2 m fstype w3 :
  getDevID E dir (world s) = (devID, None) ->
  setDevLimit E dir devID (world s) = ((lim, None), w1) ->
  mountPoints (driver s) !! devID = None ->
  CheckMountpoint E devID w1 = (mp, hasQuota, fs) ->
  mp <> "" ->
  (if hasQuota then w2 = w1
   else exists r0, exec_Run E ["mount"; "-o"; "remount,prjquota"; mp] w1 = (r0, w2)
                   /\ run_err r0 = None) ->
  getMountpointFstype E dir w2 = (m, fstype, None) ->
  (if String.eqb fstype xfsFS then w3 = w2
   else exists r, exec_Run E ["quotaon"; "-P"; mp] w2 = (r, w3)
                  /\ run_err r = None) ->
  EnforceQuota E dir s
  = ((mp, None),
     mkSt w3
       (mkDriver (quotaIDs (driver s)) (<[devID := mp]> (mountPoints (driver s)))
          (lastID (driver s)))
       (trace s
        ++ (if hasQuota then [] else [["mount"; "-o"; "remount,prjquota"; mp]])
        ++ (if String.eqb fstype xfsFS then [] else [["quotaon"; "-P"; mp]]))).
Proof.
  intros Hdev Hlim Hnc Hcm Hmp Hre Hfs Hq.
  unfold EnforceQuota. rewrite Hdev, Hlim. simpl. rewrite Hnc, Hcm.
  assert (Hlen : (Go.len mp =? 0)%nat = false).
  { apply Nat.eqb_neq. destruct mp; [done|simpl; lia]. }
  rewrite Hlen.
  destruct hasQuota; simpl.
  - subst w2. rewrite Hfs.
    destruct (String.eqb fstype xfsFS); simpl.
    + subst w3. unfold set_driver. simpl. now rewrite app_nil_r.
    + destruct Hq as (r & Hr & Hok). unfold Run. simpl. rewrite Hr, Hok.
      reflexivity.
  - destruct Hre as (r0 & Hr0 & Hok0). unfold Run at 1. simpl.
    rewrite Hr0, Hok0. simpl. rewrite Hfs.
    destruct (String.eqb fstype xfsFS); simpl.
    + subst w3. unfold set_driver. simpl. reflexivity.
    + destruct Hq as (r & Hr & Hok). unfold Run. simpl. rewrite Hr, Hok.
      unfold set_driver. simpl. now rewrite <- app_assoc.
Qed.

(** X9: a failed activation makes SetDiskQuota fail from then on. After
    a call of EnforceQuota on the path of [EnforceQuota_failed_activation],
    and whatever is called in between, SetDiskQuota for a directory on the
    same device whose pre-checks pass returns the "failed to find
    mountpoint" error and runs no command. *)
Theorem SetDiskQuota_after_failed_activation dir (s : St World) devID lim w1 mp
    hasQuota fs s2 m fstype r s3 e :
  getDevID E dir (world s) = (devID, None) ->
  setDevLimit E dir devID (world s) = ((lim, None), w1) ->
  mountPoints (driver s) !! devID = None ->
  CheckMountpoint E devID w1 = (mp, hasQuota, fs) ->
  mp <> "" ->
  (if hasQuota then s2 = set_world s w1
   else exists r0,
       Run E ["mount"; "-o"; "remount,prjquota"; mp] (set_world s w1) = (r0, s2)
       /\ run_err r0 = None) ->
  getMountpointFstype E dir (world s2) = (m, fstype, None) ->
  fstype <> xfsFS ->
  Run E ["quotaon"; "-P"; mp] s2 = (r, s3) ->
  run_err r = Some e ->
  Go.Contains (stderr r) " File exists" = false ->
  forall cs s4 dir2 lim2 w2 size quotaID,
    run_calls E cs (EnforceQuota E dir s).2 = Some s4 ->
    getDevID E dir2 (world s4) = (devID, None) ->
    setDevLimit E dir2 devID (world s4) = ((lim2, None), w2) ->
    SetDiskQuota E dir2 size quotaID s4
    = Some (Some (Errorf "failed to find mountpoint, dir: (%s)"), set_world s4 w2).
Proof.
  intros Hdev Hlim Hnc Hcm Hmp Hre Hfs Hx Hq He Hc cs s4 dir2 lim2 w2 size quotaID
    Hcs Hdev2 Hlim2.
  destruct (EnforceQuota_failed_activation E dir s devID lim w1 mp hasQuota fs s2
              m fstype r s3 e Hdev Hlim Hnc Hcm Hmp Hre Hfs Hx Hq He Hc)
    as (_ & _ & Hlater).
  unfold SetDiskQuota.
  rewrite (Hlater cs s4 dir2 lim2 w2 Hcs Hdev2 Hlim2). reflexivity.
Qed.

(** X8: a failed activation is not reported. When quotaon fails and its
    standard error does not contain " File exists", EnforceQuota returns
    the empty mountpoint with a nil error, after the commands it has run,
    and binds the device to the empty mountpoint in the cache. *)
Theorem EnforceQuota_swallows_activation_error dir (s : St World) devID lim w1 mp
    hasQuota fs s2 m fstype r s3 e :
  getDevID E dir (world s) = (devID, None) ->
  setDevLimit E dir devID (world s) = ((lim, None), w1) ->
  mountPoints (driver s) !! devID = None ->
  CheckMountpoint E devID w1 = (mp, hasQuota, fs) ->
  mp <> "" ->
  (if hasQuota then s2 = set_world s w1
   else exists r0,
       Run E ["mount"; "-o"; "remount,prjquota"; mp] (set_world s w1) = (r0, s2)
       /\ run_err r0 = None) ->
  getMountpointFstype E dir (world s2) = (m, fstype, None) ->
  fstype <> xfsFS ->
  Run E ["quotaon"; "-P"; mp] s2 = (r, s3) ->
  run_err r = Some e ->
  Go.Contains (stderr r) " File exists" = false ->
  EnforceQuota E dir s
  = (("", None),
     set_driver s3
       (mkDriver (quotaIDs (driver s3)) (<[devID := ""]> (mountPoints (driver s3)))
          (lastID (driver s3)))).
Proof.
  intros Hdev Hlim Hnc Hcm Hmp Hre Hfs Hx Hq He Hc.
  unfold EnforceQuota. rewrite Hdev, Hlim. simpl. rewrite Hnc, Hcm.
  assert (Hlen : (Go.len mp =? 0)%nat = false).
  { apply Nat.eqb_neq. destruct mp; [done|simpl; lia]. }
  rewrite Hlen.
  apply String.eqb_neq in Hx.
  destruct hasQuota; simpl.
  - subst s2. simpl in Hfs. rewrite Hfs, Hx. simpl. now rewrite Hq, He, Hc.
  - destruct Hre as (r0 & Hr0 & Hok). rewrite Hr0, Hok, Hfs, Hx. simpl.
    now rewrite Hq, He, Hc.
Qed.

(** X10: no call removes or changes an entry of the cache. After any
    sequence of calls that return, a device that was bound to a mountpoint
    is bound to the same mountpoint. *)
Theorem cache_entries_are_kept cs (s s1 : St World) d m :
  run_calls E cs s = Some s1 ->
  mountPoints (driver s) !! d = Some m ->
  mountPoints (driver s1) !! d = Some m.
Proof.
  revert s. induction cs as [|c cs IH]; simpl; intros s Hrun Hm.
  - now injection Hrun as <-.
  - destruct (run_call E c s) as [s0|] eqn:Hc; [|discriminate].
    apply (IH s0 Hrun). now apply (run_call_keeps_cache E c s s0).
Qed.

End EnforceQuotaMore.

(** No supported filesystem in the table: nothing is run. *)
Lemma EnforceQuota_no_mountpoint_witness :
  EnforceQuota
    (Scenario.env Scenario.tmpfs_mtab Scenario.dev42 ext4FS Scenario.all_ok
       Scenario.any_dir 107374182400) "/data/c1" Scenario.init
  = (("", Some (Errorf "mountPoint not found for the device on which dir (%s) lies")),
     set_world Scenario.init tt).
Proof.
  apply (EnforceQuota_no_mountpoint
           (Scenario.env Scenario.tmpfs_mtab Scenario.dev42 ext4FS Scenario.all_ok
              Scenario.any_dir 107374182400)
           "/data/c1" Scenario.init 42%N 107374182400%N tt); reflexivity.
Defined.

(** The scenario of the specification with a remount that fails. *)
Lemma EnforceQuota_remount_failure_witness :
  let E := Scenario.env Scenario.pouch_mtab Scenario.dev42 ext4FS
             Scenario.mount_fails Scenario.any_dir 107374182400 in
  EnforceQuota E "/data/c1" Scenario.init
  = (("", Some (Wrapped (Errorf "exit status 1")
                  "failed to remount prjquota, mountpoint: (%s), stdout: (%s), stderr: (%s), exit: (%d)")),
     mkSt tt (driver Scenario.init)
       (trace Scenario.init ++ [["mount"; "-o"; "remount,prjquota"; "/home/pouch"]]))
  /\ mountPoints (driver (EnforceQuota E "/data/c1" Scenario.init).2) !! 42%N = None.
Proof.
  cbv zeta.
  apply (EnforceQuota_remount_failure
           (Scenario.env Scenario.pouch_mtab Scenario.dev42 ext4FS
              Scenario.mount_fails Scenario.any_dir 107374182400)
           "/data/c1" Scenario.init 42%N 107374182400%N tt "/home/pouch" "ext4"
           (Scenario.failed "mount: /home/pouch not mounted or bad option") tt
           (Errorf "exit status 1")).
  - reflexivity.
  - reflexivity.
  - reflexivity.
  - reflexivity.
  - discriminate.
  - reflexivity.
  - reflexivity.
Defined.

(** An xfs mount without the option: the remount is run, quotaon is
    not. *)
Lemma EnforceQuota_enables_witness :
  EnforceQuota
    (Scenario.env Scenario.xfs_mtab Scenario.dev42 xfsFS Scenario.all_ok
       Scenario.any_dir 107374182400) "/data/c1" Scenario.init
  = (("/home/pouch", None),
     mkSt tt
       (mkDriver (quotaIDs (driver Scenario.init))
          (<[42%N := "/home/pouch"]> (mountPoints (driver Scenario.init)))
          (lastID (driver Scenario.init)))
       (trace Scenario.init
        ++ (if false then [] else [["mount"; "-o"; "remount,prjquota"; "/home/pouch"]])
        ++ (if String.eqb "xfs" xfsFS then [] else [["quotaon"; "-P"; "/home/pouch"]]))).
Proof.
  apply (EnforceQuota_enables
           (Scenario.env Scenario.xfs_mtab Scenario.dev42 xfsFS Scenario.all_ok
              Scenario.any_dir 107374182400)
           "/data/c1" Scenario.init 42%N 107374182400%N tt "/home/pouch" false "xfs"
           tt "/home/pouch" "xfs" tt).
  - reflexivity.
  - reflexivity.
  - reflexivity.
  - reflexivity.
  - discriminate.
  - exists Scenario.ok. split; reflexivity.
  - reflexivity.
  - reflexivity.
Defined.

(** The scenario of the specification with a quotaon that fails for a
    reason other than quota being on already. *)
Lemma EnforceQuota_swallows_activation_error_witness :
  let s3 := mkSt tt (mkDriver ∅ ∅ 0)
              [["mount"; "-o"; "remount,prjquota"; "/home/pouch"];
               ["quotaon"; "-P"; "/home/pouch"]] in
  EnforceQuota
    (Scenario.env Scenario.pouch_mtab Scenario.dev42 ext4FS
       (Scenario.quotaon_fails "quotaon: Cannot find mountpoint for device /dev/sdb1")
       Scenario.any_dir 107374182400) "/data/c1" Scenario.init
  = (("", None),
     set_driver s3
       (mkDriver (quotaIDs (driver s3)) (<[42%N := ""]> (mountPoints (driver s3)))
          (lastID (driver s3)))).
Proof.
  cbv zeta.
  apply (EnforceQuota_swallows_activation_error
           (Scenario.env Scenario.pouch_mtab Scenario.dev42 ext4FS
              (Scenario.quotaon_fails "quotaon: Cannot find mountpoint for device /dev/sdb1")
              Scenario.any_dir 107374182400)
           "/data/c1" Scenario.init 42%N 107374182400%N tt "/home/pouch" false
           "ext4"
           (mkSt tt (mkDriver ∅ ∅ 0)
              [["mount"; "-o"; "remount,prjquota"; "/home/pouch"]])
           "/home/pouch" "ext4"
           (Scenario.failed "quotaon: Cannot find mountpoint for device /dev/sdb1")
           (mkSt tt (mkDriver ∅ ∅ 0)
              [["mount"; "-o"; "remount,prjquota"; "/home/pouch"];
               ["quotaon"; "-P"; "/home/pouch"]])
           (Errorf "exit status 1")).
  - reflexivity.
  - reflexivity.
  - reflexivity.
  - reflexivity.
  - discriminate.
  - exists Scenario.ok. split; reflexivity.
  - reflexivity.
  - discriminate.
  - reflexivity.
  - reflexivity.
  - reflexivity.
Defined.

(** The same scenario: a later SetDiskQuota for /data/c2 on the device
    fails and runs nothing. *)
Lemma SetDiskQuota_after_failed_activation_witness :
  let E := Scenario.env Scenario.pouch_mtab Scenario.dev42 ext4FS
             (Scenario.quotaon_fails "quotaon: Cannot find mountpoint for device /dev/sdb1")
             Scenario.any_dir 107374182400 in
  let s4 := (EnforceQuota E "/data/c1" Scenario.init).2 in
  SetDiskQuota E "/data/c2" "10G" 0 s4
  = Some (Some (Errorf "failed to find mountpoint, dir: (%s)"), set_world s4 tt).
Proof.
  cbv zeta.
  apply (SetDiskQuota_after_failed_activation
           (Scenario.env Scenario.pouch_mtab Scenario.dev42 ext4FS
              (Scenario.quotaon_fails "quotaon: Cannot find mountpoint for device /dev/sdb1")
              Scenario.any_dir 107374182400)
           "/data/c1" Scenario.init 42%N 107374182400%N tt "/home/pouch" false
           "ext4"
           (mkSt tt (mkDriver ∅ ∅ 0)
              [["mount"; "-o"; "remount,prjquota"; "/home/pouch"]])
           "/home/pouch" "ext4"
           (Scenario.failed "quotaon: Cannot find mountpoint for device /dev/sdb1")
           (mkSt tt (mkDriver ∅ ∅ 0)
              [["mount"; "-o"; "remount,prjquota"; "/home/pouch"];
               ["quotaon"; "-P"; "/home/pouch"]])
           (Errorf "exit status 1")
           ltac:(reflexivity) ltac:(reflexivity) ltac:(reflexivity)
           ltac:(reflexivity) ltac:(discriminate)
           ltac:(exists Scenario.ok; split; reflexivity)
           ltac:(reflexivity) ltac:(discriminate) ltac:(reflexivity)
           ltac:(reflexivity) ltac:(reflexivity)
           [] _ "/data/c2" 107374182400%N tt "10G" 0%N).
  - reflexivity.
  - reflexivity.
  - reflexivity.
Defined.

(** The scenario of the specification: the binding of device 42 made by
    EnforceQuota is there after a SetDiskQuota and an allocation. *)
Lemma cache_entries_are_kept_witness :
  let E := Scenario.pouch in
  let s := (EnforceQuota E "/data/c1" Scenario.init).2 in
  let s1 := default s
              (run_calls E [CallSetDiskQuota "/data/c1" "10G" 0; CallGetNextQuotaID] s) in
  mountPoints (driver s1) !! 42%N = Some "/home/pouch".
Proof.
  cbv zeta.
  apply (cache_entries_are_kept Scenario.pouch
           [CallSetDiskQuota "/data/c1" "10G" 0; CallGetNextQuotaID]
           (EnforceQuota Scenario.pouch "/data/c1" Scenario.init).2).
  - vm_compute. reflexivity.
  - reflexivity.
Defined.


(** ** More on the allocator *)

Section AllocatorMore.

Context {World : Type}.
Variable E : Env World.

Lemma next_candidate_range id :
  (next_candidate E id < 2 ^ 32)%N.
Proof. unfold next_candidate, Go.wrap32. apply N.mod_lt. lia. Qed.

Lemma next_candidate_zero_or_above id :
  (QuotaMinID E < 2 ^ 32)%N -> (id < 2 ^ 32)%N ->
  next_candidate E id = 0%N \/ (QuotaMinID E < next_candidate E id)%N.
Proof.
  intros Hmin Hid. unfold next_candidate, Go.wrap32.
  destruct (id <? QuotaMinID E)%N eqn:Hlt.
  - apply N.ltb_lt in Hlt.
    destruct (decide (QuotaMinID E + 1 = 2 ^ 32)%N) as [->|Hne].
    + left. reflexivity.
    + right. rewrite N.mod_small by lia. lia.
  - apply N.ltb_ge in Hlt.
    destruct (decide (id + 1 = 2 ^ 32)%N) as [->|Hne].
    + left. reflexivity.
    + right. rewrite N.mod_small by lia. lia.
Qed.

(** When the loop ends, it ends on an identifier that is not in the set,
    fits a uint32, and is 0 or above the floor. *)
Lemma scan_Some fuel ids : forall id r,
  scan E fuel ids id = Some r ->
  (r ∉ ids) /\ (r < 2 ^ 32)%N
  /\ ((QuotaMinID E < 2 ^ 32)%N -> (id < 2 ^ 32)%N ->
      r = 0%N \/ (QuotaMinID E < r)%N).
Proof.
  induction fuel as [|fuel IH]; intros id r; [discriminate|].
  simpl. destruct (decide (next_candidate E id ∈ ids)) as [Hin|Hout].
  - intros H. destruct (IH _ _ H) as (Hr & Hlt & Hfl).
    repeat split; try done.
    intros Hmin _. apply Hfl; [done|apply next_candidate_range].
  - intros [= <-]. repeat split; [done|apply next_candidate_range|].
    apply next_candidate_zero_or_above.
Qed.

(** X11: what a call that returns an identifier has done. The identifier
    was not in the set the scan started from (the set of the driver, or
    the set just loaded when the marker was 0); the set is now that set
    plus the identifier and the marker is the identifier; the identifier
    fits a uint32 and, the floor and the starting marker being uint32
    values, it is 0 or above the floor. The cache and the log of commands
    are as before. *)
Theorem GetNextQuotaID_fresh (s : St World) id s1 :
  GetNextQuotaID E s = Some ((id, None), s1) ->
  (id ∉ (lazy_load E s).1.1.1)
  /\ quotaIDs (driver s1) = {[id]} ∪ (lazy_load E s).1.1.1
  /\ lastID (driver s1) = id
  /\ (id < 2 ^ 32)%N
  /\ ((QuotaMinID E < 2 ^ 32)%N -> ((lazy_load E s).1.1.2 < 2 ^ 32)%N ->
      id = 0%N \/ (QuotaMinID E < id)%N)
  /\ mountPoints (driver s1) = mountPoints (driver s)
  /\ trace s1 = trace s
  /\ world s1 = (lazy_load E s).2.
Proof.
  unfold GetNextQuotaID.
  destruct (lazy_load E s) as [[[ids last] [e|]] w]; [discriminate|].
  destruct (scan E (S (size ids)) ids last) as [r|] eqn:Hscan; [|discriminate].
  intros [= <- <-]. apply scan_Some in Hscan as (Hout & Hlt & Hfl).
  simpl. repeat split; done.
Qed.

(** From a start whose floor-adjusted value is [m], the [j]-th identifier
    the loop tests is [m + j], as long as that fits a uint32. *)
Lemma candidates_climb id : forall j,
  1 <= j ->
  (N.max id (QuotaMinID E) + N.of_nat j < 2 ^ 32)%N ->
  Nat.iter j (next_candidate E) id = (N.max id (QuotaMinID E) + N.of_nat j)%N.
Proof.
  induction j as [|j IH]; intros Hj Hlt; [lia|].
  destruct j as [|j].
  - simpl. unfold next_candidate, Go.wrap32.
    destruct (id <? QuotaMinID E)%N eqn:Hc;
      [apply N.ltb_lt in Hc|apply N.ltb_ge in Hc];
      rewrite N.mod_small by lia; lia.
  - change (Nat.iter (S (S j)) (next_candidate E) id)
      with (next_candidate E (Nat.iter (S j) (next_candidate E) id)).
    rewrite IH by lia.
    unfold next_candidate, Go.wrap32.
    destruct (N.max id (QuotaMinID E) + N.of_nat (S j) <? QuotaMinID E)%N eqn:Hc;
      [apply N.ltb_lt in Hc; lia|].
    rewrite N.mod_small by lia. lia.
Qed.

(** Every identifier above the floor is tested sooner or later, from any
    start: the loop climbs to the top of the uint32 range, wraps to 0 and
    climbs again from the floor. *)
Lemma candidates_reach id x :
  (QuotaMinID E < 2 ^ 32)%N -> (id < 2 ^ 32)%N ->
  (QuotaMinID E < x)%N -> (x < 2 ^ 32)%N ->
  exists k, 1 <= k /\ Nat.iter k (next_candidate E) id = x.
Proof.
  intros Hmin Hid Hx1 Hx2.
  set (m := N.max id (QuotaMinID E)).
  destruct (decide (m < x)%N) as [Hlt|Hge].
  - exists (N.to_nat (x - m)). split; [lia|].
    rewrite candidates_climb by (fold m; lia). fold m. lia.
  - (* climb to the top, wrap to 0, climb from the floor *)
    assert (Htop : exists k0, Nat.iter k0 (next_candidate E) id = (2 ^ 32 - 1)%N).
    { destruct (decide (m = 2 ^ 32 - 1)%N) as [Hm|Hm].
      - exists 0. simpl. unfold m in Hm. lia.
      - exists (N.to_nat (2 ^ 32 - 1 - m)).
        rewrite candidates_climb by (fold m; lia). fold m. lia. }
    destruct Htop as (k0 & Hk0).
    exists (N.to_nat (x - QuotaMinID E) + S k0). split; [lia|].
    rewrite Nat.iter_add.
    assert (Hzero : Nat.iter (S k0) (next_candidate E) id = 0%N).
    { simpl. rewrite Hk0. unfold next_candidate, Go.wrap32.
      destruct (2 ^ 32 - 1 <? QuotaMinID E)%N eqn:Hc;
        [apply N.ltb_lt in Hc; lia|]. reflexivity. }
    rewrite Hzero.
    rewrite candidates_climb by lia. lia.
Qed.

(** X13: the call returns whenever an identifier is left. When the load
    (if there is one) succeeds, the floor and the starting marker are
    uint32 values, and some identifier above the floor and below 2^32 is
    not in the set, GetNextQuotaID returns an identifier: the loop does
    not run for ever. *)
Theorem GetNextQuotaID_returns (s : St World) ids last w x :
  lazy_load E s = (ids, last, None, w) ->
  (QuotaMinID E < 2 ^ 32)%N -> (last < 2 ^ 32)%N ->
  x ∉ ids -> (QuotaMinID E < x)%N -> (x < 2 ^ 32)%N ->
  exists id s1, GetNextQuotaID E s = Some ((id, None), s1).
Proof.
  intros Hload Hmin Hlast Hx Hx1 Hx2.
  unfold GetNextQuotaID. rewrite Hload.
  destruct (scan E (S (size ids)) ids last) as [r|] eqn:Hscan.
  - eexists _, _. reflexivity.
  - exfalso. apply Hx.
    destruct (candidates_reach last x Hmin Hlast Hx1 Hx2) as (k & Hk & <-).
    pose proof (scan_None_forever E ids last Hscan k) as Hnone.
    rewrite scan_None_iff in Hnone. apply Hnone. lia.
Qed.

End AllocatorMore.

(** A fresh driver in the scenario of the specification: the identifier
    16777217 is returned. *)
Lemma GetNextQuotaID_fresh_witness :
  let s1 := mkSt tt (mkDriver {[16777217%N]} ∅ 16777217) [] in
  (16777217%N ∉ (lazy_load Scenario.pouch Scenario.init).1.1.1)
  /\ quotaIDs (driver s1) = {[16777217%N]} ∪ (lazy_load Scenario.pouch Scenario.init).1.1.1
  /\ lastID (driver s1) = 16777217%N
  /\ (16777217 < 2 ^ 32)%N
  /\ ((QuotaMinID Scenario.pouch < 2 ^ 32)%N ->
      ((lazy_load Scenario.pouch Scenario.init).1.1.2 < 2 ^ 32)%N ->
      16777217%N = 0%N \/ (QuotaMinID Scenario.pouch < 16777217)%N)
  /\ mountPoints (driver s1) = mountPoints (driver Scenario.init)
  /\ trace s1 = trace Scenario.init
  /\ world s1 = (lazy_load Scenario.pouch Scenario.init).2.
Proof.
  cbv zeta.
  apply (GetNextQuotaID_fresh Scenario.pouch Scenario.init 16777217%N
           (mkSt tt (mkDriver {[16777217%N]} ∅ 16777217) [])).
  vm_compute. reflexivity.
Defined.

(** Three calls on a fresh driver in the scenario of the specification,
    with the bound 16777217. *)
Lemma allocate_below_witness :
  exists got s1,
    allocate Scenario.pouch 3 Scenario.init = Some (got, s1)
    /\ length got = 3
    /\ NoDup got
    /\ Forall (fun id => (QuotaMinID Scenario.pouch < id)%N /\ id ∉ (∅ : gset N)) got.
Proof.
  apply (allocate_below Scenario.pouch 3 Scenario.init ∅ 16777216%N tt 16777217%N).
  - reflexivity.
  - unfold below. split; [|split].
    + intros x Hx. now apply not_elem_of_empty in Hx.
    + reflexivity.
    + reflexivity.
  - vm_compute. discriminate.
Defined.

(** A driver that holds one identifier: 16777218 is free. *)
Lemma GetNextQuotaID_returns_witness :
  exists id s1,
    GetNextQuotaID Scenario.pouch
      (mkSt tt (mkDriver {[16777217%N]} ∅ 16777217) []) = Some ((id, None), s1).
Proof.
  apply (GetNextQuotaID_returns Scenario.pouch
           (mkSt tt (mkDriver {[16777217%N]} ∅ 16777217) [])
           {[16777217%N]} 16777217%N tt 16777218%N).
  - reflexivity.
  - reflexivity.
  - reflexivity.
  - intros Hin. apply elem_of_singleton in Hin. discriminate.
  - reflexivity.
  - reflexivity.
Defined.

(** ** More on the binders and on SetDiskQuota *)

Section BinderMore.

Context {World : Type}.
Variable E : Env World.

(** X14: the three binders that are not recursive do the same thing to
    the world. SetQuotaIDInFileAttrNoOutput and the second half of
    SetSubtree leave the state SetQuotaIDInFileAttr leaves, and the
    second half of SetSubtree reports an error when SetQuotaIDInFileAttr
    does. *)
Theorem binders_agree dir quotaID (s : St World) :
  SetQuotaIDInFileAttrNoOutput E dir quotaID s = (SetQuotaIDInFileAttr E dir quotaID s).2
  /\ (bind_subtree E dir quotaID s).2 = (SetQuotaIDInFileAttr E dir quotaID s).2
  /\ ((bind_subtree E dir quotaID s).1.2 = None
      <-> (SetQuotaIDInFileAttr E dir quotaID s).1 = None).
Proof.
  unfold SetQuotaIDInFileAttrNoOutput, SetQuotaIDInFileAttr, bind_subtree.
  destruct (getMountpointFstype E dir (world s)) as [[m fstype] [e|]];
    [simpl; repeat split; discriminate|].
  destruct (String.eqb fstype xfsFS); simpl;
    destruct (Run E _ s) as [r s1]; simpl; repeat split;
    destruct (run_err r); simpl; try done.
Qed.

(** X15: an identifier handed to SetSubtree is used as it is and is not
    recorded. With a requested identifier other than 0, SetSubtree does
    not read the tag and does not allocate: the driver is unchanged (the
    identifier is not entered in the set), at most one command is run, the
    tagging command for that identifier. The call returns the requested
    identifier, also when the tagging command fails; it returns 0 only
    when the filesystem kind cannot be found, and then it runs nothing. *)
Theorem SetSubtree_explicit_id dir qid (s : St World) :
  qid <> 0%N ->
  exists r s1,
    SetSubtree E dir qid s = Some (r, s1)
    /\ driver s1 = driver s
    /\ match getMountpointFstype E dir (world s) with
       | (_, _, Some e) =>
           r = (0%N, Some (Wrapped e "failed to get fs type, dir: (%s), err: (%v)"))
           /\ s1 = s
       | (_, fstype, None) =>
           r.1 = qid
           /\ trace s1 = trace s ++
                [if String.eqb fstype xfsFS then
                   ["xfs_quota"; "-x"; "-c";
                    ("project -s -p " ++ dir ++ " " ++ Go.FormatUint qid)%string]
                 else ["chattr"; "-p"; Go.FormatUint qid; "+P"; dir]]
       end.
Proof.
  intros Hq. apply N.eqb_neq in Hq.
  unfold SetSubtree. rewrite Hq.
  destruct (bind_subtree E dir qid s) as [r s1] eqn:Hb.
  exists r, s1. split; [reflexivity|].
  split; [pose proof (bind_subtree_driver E dir qid s) as Hd; now rewrite Hb in Hd|].
  unfold bind_subtree in Hb.
  destruct (getMountpointFstype E dir (world s)) as [[m fstype] [e|]];
    [now injection Hb as <- <-|].
  destruct (String.eqb fstype xfsFS); simpl in Hb;
    destruct (Run E _ s) as [r0 s0] eqn:HR; apply Run_inv in HR as (Ht & _);
    injection Hb as <- <-; now split.
Qed.

(** X16: with no identifier requested and none found on the directory,
    SetSubtree allocates. When the tag reader reports 0 and the allocator
    is below the wrap-around, SetSubtree returns; an identifier that was
    not in the set and is above the floor has been entered in the set and
    is the marker, whatever happens to the tagging; and the call returns
    that identifier, or 0 with an error when the filesystem kind cannot be
    found. *)
Theorem SetSubtree_allocates dir (s : St World) s1 ids last w B :
  GetQuotaIDInFileAttr E dir s = (0%N, s1) ->
  lazy_load E s1 = (ids, last, None, w) ->
  below E B ids last ->
  (B < 2 ^ 32)%N ->
  exists id r s3,
    SetSubtree E dir 0 s = Some (r, s3)
    /\ (id ∉ ids) /\ (QuotaMinID E < id)%N
    /\ quotaIDs (driver s3) = {[id]} ∪ ids
    /\ lastID (driver s3) = id
    /\ (r.1 = id \/ (r.1 = 0%N /\ r.2 <> None))
    /\ (r.2 = None -> r.1 = id).
Proof.
  intros Hread Hload Hbelow HB.
  destruct (GetNextQuotaID_below E s1 ids last w B Hload Hbelow HB)
    as (id & s2 & Hcall & Hout & Hfl & _ & Hset & Hlast & _).
  unfold SetSubtree. simpl. rewrite Hread. simpl. rewrite Hcall.
  destruct (bind_subtree E dir id s2) as [r s3] eqn:Hb.
  exists id, r, s3. split; [reflexivity|].
  pose proof (bind_subtree_driver E dir id s2) as Hd. rewrite Hb in Hd.
  simpl in Hd. rewrite Hd.
  repeat split; try done.
  - unfold bind_subtree in Hb.
    destruct (getMountpointFstype E dir (world s2)) as [[m fstype] [e|]].
    + injection Hb as <- _. right. split; [reflexivity|discriminate].
    + destruct (String.eqb fstype xfsFS); simpl in Hb;
        destruct (Run E _ s2) as [r0 s0]; injection Hb as <- _; now left.
  - unfold bind_subtree in Hb.
    destruct (getMountpointFstype E dir (world s2)) as [[m fstype] [e|]].
    + injection Hb as <- _. discriminate.
    + destruct (String.eqb fstype xfsFS); simpl in Hb;
        destruct (Run E _ s2) as [r0 s0]; injection Hb as <- _; done.
Qed.

(** The second half of SetSubtree returns 0 only together with an
    error. *)
Lemma bind_subtree_id dir id (s : St World) r s1 :
  bind_subtree E dir id s = ((r, None), s1) -> r = id.
Proof.
  unfold bind_subtree.
  destruct (getMountpointFstype E dir (world s)) as [[m fstype] [e|]];
    [discriminate|].
  destruct (String.eqb fstype xfsFS); simpl;
    destruct (Run E _ s) as [r0 s0]; now intros [= <- _ _].
Qed.

(** What a setQuota that returns no error has run. *)
Lemma setQuota_ok quotaID blockLimit mountPoint (s s1 : St World) :
  setQuota E quotaID blockLimit mountPoint s = (None, s1) ->
  exists cmd, trace s1 = trace s ++ [cmd]
    /\ (cmd = ["setquota"; "-P"; Go.FormatUint quotaID; "0";
               Go.FormatUint blockLimit; "0"; "0"; mountPoint]
        \/ cmd = ["xfs_quota"; "-x"; "-c";
                  ("limit -p bhard=" ++ Go.FormatUint blockLimit ++ "k "
                   ++ Go.FormatUint quotaID)%string;
                  mountPoint]).
Proof.
  unfold setQuota.
  destruct (getMountpointFstype E mountPoint (world s)) as [[m fstype] [e|]];
    [discriminate|].
  destruct (String.eqb fstype xfsFS); simpl;
    destruct (Run E _ s) as [r s0] eqn:HR; apply Run_inv in HR as (Ht & _);
    intros [= _ <-]; eexists; (split; [exact Ht|]); [now right|now left].
Qed.

(** X17: what a SetDiskQuota that returns no error has done. The
    enablement step returned a non-empty mountpoint without error, the
    size was converted to a number of kilobytes, and the last command run
    is the limit command, for an identifier other than 0, that number of
    kilobytes and that mountpoint; when an identifier other than 0 was
    requested it is that one. *)
Theorem SetDiskQuota_success dir size quotaID (s s1 : St World) :
  SetDiskQuota E dir size quotaID s = Some (None, s1) ->
  exists mp limit id pre cmd,
    (EnforceQuota E dir s).1 = (mp, None)
    /\ mp <> ""
    /\ ToKilobytes E size = (limit, None)
    /\ id <> 0%N
    /\ (quotaID <> 0%N -> id = quotaID)
    /\ trace s1 = pre ++ [cmd]
    /\ (cmd = ["setquota"; "-P"; Go.FormatUint id; "0"; Go.FormatUint limit;
               "0"; "0"; mp]
        \/ cmd = ["xfs_quota"; "-x"; "-c";
                  ("limit -p bhard=" ++ Go.FormatUint limit ++ "k "
                   ++ Go.FormatUint id)%string;
                  mp]).
Proof.
  unfold SetDiskQuota.
  destruct (EnforceQuota E dir s) as [[mp [e|]] s0]; [discriminate|].
  destruct (Go.len mp =? 0)%nat eqn:Hlen; [discriminate|].
  destruct (ToKilobytes E size) as [limit [e|]]; [discriminate|].
  destruct (checkDevLimit E dir (Go.wrap64 (limit * 1024)) (world s0));
    [discriminate|].
  destruct (SetSubtree E dir quotaID s0) as [[[id [e|]] s2]|] eqn:HS;
    try discriminate.
  destruct (id =? 0)%N eqn:Hid; [discriminate|].
  intros [= Hset]. apply setQuota_ok in Hset as (cmd & Ht & Hcmd).
  exists mp, limit, id, (trace s2), cmd.
  repeat split; try done.
  - intros ->. discriminate.
  - now apply N.eqb_neq.
  - intros Hq. apply N.eqb_neq in Hq.
    unfold SetSubtree in HS. rewrite Hq in HS. injection HS as HS.
    now apply bind_subtree_id in HS.
Qed.

End BinderMore.

(** The scenario of the specification with the identifier 16777300
    requested. *)
Lemma SetSubtree_explicit_id_witness :
  exists r s1,
    SetSubtree Scenario.pouch "/data/c1" 16777300 Scenario.init = Some (r, s1)
    /\ driver s1 = driver Scenario.init
    /\ match getMountpointFstype Scenario.pouch "/data/c1" (world Scenario.init) with
       | (_, _, Some e) =>
           r = (0%N, Some (Wrapped e "failed to get fs type, dir: (%s), err: (%v)"))
           /\ s1 = Scenario.init
       | (_, fstype, None) =>
           r.1 = 16777300%N
           /\ trace s1 = trace Scenario.init ++
                [if String.eqb fstype xfsFS then
                   ["xfs_quota"; "-x"; "-c";
                    ("project -s -p " ++ "/data/c1" ++ " "
                     ++ Go.FormatUint 16777300)%string]
                 else ["chattr"; "-p"; Go.FormatUint 16777300; "+P"; "/data/c1"]]
       end.
Proof.
  apply (SetSubtree_explicit_id Scenario.pouch "/data/c1" 16777300%N Scenario.init).
  discriminate.
Defined.

(** The scenario of the specification: /data/c1 carries no tag, the
    driver is fresh. *)
Lemma SetSubtree_allocates_witness :
  exists id r s3,
    SetSubtree Scenario.pouch "/data/c1" 0 Scenario.init = Some (r, s3)
    /\ (id ∉ (∅ : gset N)) /\ (QuotaMinID Scenario.pouch < id)%N
    /\ quotaIDs (driver s3) = {[id]} ∪ ∅
    /\ lastID (driver s3) = id
    /\ (r.1 = id \/ (r.1 = 0%N /\ r.2 <> None))
    /\ (r.2 = None -> r.1 = id).
Proof.
  apply (SetSubtree_allocates Scenario.pouch "/data/c1" Scenario.init
           (mkSt tt (mkDriver ∅ ∅ 0) [["lsattr"; "-p"; "/data"]])
           ∅ 16777216%N tt 16777217%N).
  - reflexivity.
  - reflexivity.
  - unfold below. split; [|split].
    + intros x Hx. now apply not_elem_of_empty in Hx.
    + reflexivity.
    + reflexivity.
  - reflexivity.
Defined.

(** The scenario of the specification: SetDiskQuota for 10G on a fresh
    driver. *)
Lemma SetDiskQuota_success_witness :
  exists mp limit id pre cmd,
    (EnforceQuota Scenario.pouch "/data/c1" Scenario.init).1 = (mp, None)
    /\ mp <> ""
    /\ ToKilobytes Scenario.pouch "10G" = (limit, None)
    /\ id <> 0%N
    /\ (0%N <> 0%N -> id = 0%N)
    /\ [["mount"; "-o"; "remount,prjquota"; "/home/pouch"];
        ["quotaon"; "-P"; "/home/pouch"];
        ["lsattr"; "-p"; "/data"];
        ["chattr"; "-p"; "16777217"; "+P"; "/data/c1"];
        ["setquota"; "-P"; "16777217"; "0"; "10485760"; "0"; "0"; "/home/pouch"]]
       = pre ++ [cmd]
    /\ (cmd = ["setquota"; "-P"; Go.FormatUint id; "0"; Go.FormatUint limit;
               "0"; "0"; mp]
        \/ cmd = ["xfs_quota"; "-x"; "-c";
                  ("limit -p bhard=" ++ Go.FormatUint limit ++ "k "
                   ++ Go.FormatUint id)%string;
                  mp]).
Proof.
  apply (SetDiskQuota_success Scenario.pouch "/data/c1" "10G" 0%N Scenario.init
           (mkSt tt (mkDriver {[16777217%N]} {[42%N := "/home/pouch"]} 16777217)
              [["mount"; "-o"; "remount,prjquota"; "/home/pouch"];
               ["quotaon"; "-P"; "/home/pouch"];
               ["lsattr"; "-p"; "/data"];
               ["chattr"; "-p"; "16777217"; "+P"; "/data/c1"];
               ["setquota"; "-P"; "16777217"; "0"; "10485760"; "0"; "0";
                "/home/pouch"]])).
  vm_compute. reflexivity.
Defined.

(** ** The tag reader *)

Section SplitFacts.

Lemma Split_nonempty s sep : Go.Split s sep <> [].
Proof.
  destruct s as [|c s]; simpl; [discriminate|].
  destruct (Ascii.eqb c sep); [discriminate|].
  destruct (Go.Split s sep); discriminate.
Qed.

(** No field holds the separator, and every byte of a field is a byte of
    the string that was split. *)
Lemma Split_fields s sep : forall p,
  In p (Go.Split s sep) ->
  ~ In sep (list_ascii_of_string p)
  /\ (forall c, In c (list_ascii_of_string p) -> In c (list_ascii_of_string s)).
Proof.
  induction s as [|c s IH]; intros p Hp.
  - destruct Hp as [<-|[]]. split; [intros []|done].
  - simpl in Hp. destruct (Ascii.eqb c sep) eqn:Hc.
    + destruct Hp as [<-|Hp]; [split; [intros []|intros ? []]|].
      destruct (IH p Hp) as [H1 H2]. split; [exact H1|].
      intros c0 Hc0. right. now apply H2.
    + apply Ascii.eqb_neq in Hc.
      destruct (Go.Split s sep) as [|q qs] eqn:Hs;
        [now apply Split_nonempty in Hs|].
      destruct Hp as [<-|Hp].
      * destruct (IH q (or_introl eq_refl)) as [H1 H2]. split.
        -- intros [Heq|Hin]; [congruence|now apply H1].
        -- intros c0 [<-|Hc0]; [now left|right; now apply H2].
      * destruct (IH p (or_intror Hp)) as [H1 H2]. split; [exact H1|].
        intros c0 Hc0. right. now apply H2.
Qed.

Lemma Contains_byte s c :
  Go.Contains s (String c "") = true <-> In c (list_ascii_of_string s).
Proof.
  induction s as [|b s IH]; simpl.
  - split; [discriminate|intros []].
  - rewrite orb_true_iff, andb_true_iff, IH. rewrite Ascii.eqb_eq.
    assert (Hp : Go.HasPrefix s "" = true) by (destruct s; reflexivity).
    rewrite Hp. split.
    + intros [[-> _]|H]; [now left|now right].
    + intros [->|H]; [now left|now right].
Qed.

(** A string without the separator, followed by the separator, is the
    first field. *)
Lemma Split_first a sep rest :
  ~ In sep (list_ascii_of_string a) ->
  Go.Split (a ++ String sep rest)%string sep = a :: Go.Split rest sep.
Proof.
  induction a as [|c a IH]; intros Hno; simpl.
  - now rewrite Ascii.eqb_refl.
  - assert (Hc : Ascii.eqb c sep = false).
    { apply Ascii.eqb_neq. intros ->. apply Hno. now left. }
    rewrite Hc, IH; [reflexivity|]. intros Hin. apply Hno. now right.
Qed.

Lemma Split_single a sep :
  ~ In sep (list_ascii_of_string a) -> Go.Split a sep = [a].
Proof.
  induction a as [|c a IH]; intros Hno; simpl; [reflexivity|].
  assert (Hc : Ascii.eqb c sep = false).
  { apply Ascii.eqb_neq. intros ->. apply Hno. now left. }
  rewrite Hc, IH; [reflexivity|]. intros Hin. apply Hno. now right.
Qed.

End SplitFacts.

Section DecimalFacts.

Import Decimal DecimalPos DecimalN.

(** Reading the digits of a decimal numeral from the left, as Atoi
    does, gives the number the numeral denotes. *)
Lemma parse_digits_uint d : forall acc,
  Go.parse_digits (NilEmpty.string_of_uint d) acc
  = Some (acc * 10 ^ Unsigned.usize d + Unsigned.of_lu (rev d))%N.
Proof.
  induction d as [|d IH|d IH|d IH|d IH|d IH|d IH|d IH|d IH|d IH|d IH];
    intros acc;
    [simpl; f_equal; lia|..];
    cbn [NilEmpty.string_of_uint Go.parse_digits];
    match goal with
    | |- context [Go.digit_of ?c] =>
        let v := eval vm_compute in (Go.digit_of c) in
        change (Go.digit_of c) with v
    end;
    cbv beta iota;
    rewrite IH; f_equal;
    match goal with
    | |- context [Unsigned.of_lu (rev (?D d))] =>
        change (rev (D d)) with (revapp d (D Nil));
        rewrite (Unsigned.of_lu_revapp d (D Nil))
    end;
    cbn [Unsigned.usize Unsigned.of_lu];
    rewrite N.pow_succ_r'; ring.
Qed.

Lemma parse_digits_FormatUint n :
  Go.parse_digits (Go.FormatUint n) 0 = Some n.
Proof.
  unfold Go.FormatUint.
  assert (Hnn : N.to_uint n <> Nil).
  { destruct n; [discriminate|apply Unsigned.to_uint_nonnil]. }
  assert (Heq : NilZero.string_of_uint (N.to_uint n)
                = NilEmpty.string_of_uint (N.to_uint n))
    by (destruct (N.to_uint n); [congruence|reflexivity..]).
  rewrite Heq, parse_digits_uint. f_equal.
  rewrite <- Unsigned.of_uint_alt.
  change (Pos.of_uint (N.to_uint n)) with (N.of_uint (N.to_uint n)).
  rewrite DecimalN.Unsigned.of_to. lia.
Qed.

(** The bytes of a formatted number are decimal digits. *)
Lemma FormatUint_digits n c :
  In c (list_ascii_of_string (Go.FormatUint n)) -> Go.digit_of c <> None.
Proof.
  unfold Go.FormatUint.
  assert (Hall : forall d, In c (list_ascii_of_string (NilEmpty.string_of_uint d)) ->
                           Go.digit_of c <> None).
  { induction d; simpl; [intros []|..]; (intros [<-|H]; [discriminate|now apply IHd]). }
  destruct (N.to_uint n) eqn:Hd; try (rewrite <- Hd; apply Hall; fail);
    simpl; intros H; try (apply (Hall (N.to_uint n)); rewrite Hd; exact H).
  destruct H as [<-|[]]. discriminate.
Qed.

(** A string of digits that is not empty is read by Atoi as the number
    its digits denote, when that fits an int. *)
Lemma Atoi_digits s n :
  s <> "" -> Go.parse_digits s 0 = Some n -> (n < 2 ^ 63)%N ->
  Go.Atoi s = (Z.of_N n, false).
Proof.
  intros Hne Hp Hn. destruct s as [|c s]; [congruence|].
  assert (Hd : Go.digit_of c <> None)
    by (simpl in Hp; destruct (Go.digit_of c); [discriminate|discriminate]).
  unfold Go.Atoi.
  destruct c as [[] [] [] [] [] [] [] []];
    try (exfalso; apply Hd; reflexivity);
    cbv beta iota; rewrite Hp;
    apply N.ltb_lt in Hn; rewrite Hn; reflexivity.
Qed.

(** strconv.Atoi reads back what strconv.FormatUint writes, for every
    number that fits an int. *)
Lemma Atoi_FormatUint n :
  (n < 2 ^ 63)%N -> Go.Atoi (Go.FormatUint n) = (Z.of_N n, false).
Proof.
  intros Hn. apply Atoi_digits; [|apply parse_digits_FormatUint|exact Hn].
  unfold Go.FormatUint. destruct (N.to_uint n); discriminate.
Qed.

End DecimalFacts.

Section ReaderFacts.

Context {World : Type}.
Variable E : Env World.

Lemma find_attr_none dir lines :
  (forall line, In line lines -> line_names dir line = false) ->
  find_attr dir lines = 0%N.
Proof.
  induction lines as [|line lines IH]; intros Hall; [reflexivity|].
  cbn [find_attr]. fold (line_names dir line).
  rewrite (Hall line (or_introl eq_refl)). apply IH.
  intros l Hl. apply Hall. now right.
Qed.

Lemma find_attr_first dir pre line post :
  Forall (fun l => line_names dir l = false) pre ->
  line_names dir line = true ->
  find_attr dir (pre ++ line :: post)
  = Go.uint32_of_int (Go.Atoi (nth 0 (Go.Split line " ") "")).1.
Proof.
  induction pre as [|l pre IH]; intros Hpre Hline.
  - cbn [app find_attr]. fold (line_names dir line). now rewrite Hline.
  - inversion Hpre as [|? ? Hl Hrest]; subst.
    cbn [app find_attr]. fold (line_names dir l). rewrite Hl. now apply IH.
Qed.

(** X18: a directory whose path holds a space or a newline is never
    recognised by the tag reader. The reader compares the path with one
    space-separated field of one line of the lsattr output, so for such a
    path it returns 0 whatever lsattr prints. *)
Theorem GetQuotaIDInFileAttr_path_with_space dir (s : St World) :
  Go.Contains dir " " = true \/ Go.Contains dir (String "010" "") = true ->
  (GetQuotaIDInFileAttr E dir s).1 = 0%N.
Proof.
  intros Hdir. unfold GetQuotaIDInFileAttr.
  destruct (Run E ["lsattr"; "-p"; Go.Dir dir] s) as [r s1].
  destruct (run_err r); [reflexivity|]. simpl.
  apply find_attr_none. intros line Hline.
  unfold line_names.
  destruct (2 <? length (Go.Split line " "))%nat eqn:Hlen; [|reflexivity].
  simpl. apply String.eqb_neq. intros Heq.
  apply Nat.ltb_lt in Hlen.
  pose proof (nth_In (Go.Split line " ") "" Hlen) as Hin.
  rewrite Heq in Hin.
  destruct (Split_fields line " " dir Hin) as [Hnosp Hsub].
  destruct Hdir as [Hsp|Hnl].
  - apply Contains_byte in Hsp. now apply Hnosp.
  - apply Contains_byte in Hnl. apply Hsub in Hnl.
    destruct (Split_fields (stdout r) "010" line Hline) as [Hnonl _].
    now apply Hnonl.
Qed.

(** X19: the tag reader reads back the identifier the binders write.
    When lsattr succeeds and the first line of its output that names the
    directory is the identifier as strconv.FormatUint prints it, one
    field of attributes and the path, each followed by one space, the
    reader returns that identifier. *)
Theorem GetQuotaIDInFileAttr_reads_back dir (s : St World) r s1 id attrs pre post :
  Run E ["lsattr"; "-p"; Go.Dir dir] s = (r, s1) ->
  run_err r = None ->
  Go.Split (stdout r) "010"
  = pre ++ (Go.FormatUint id ++ " " ++ attrs ++ " " ++ dir)%string :: post ->
  Forall (fun l => line_names dir l = false) pre ->
  Go.Contains attrs " " = false ->
  Go.Contains dir " " = false ->
  (id < 2 ^ 32)%N ->
  GetQuotaIDInFileAttr E dir s = (id, s1).
Proof.
  intros Hrun Herr Hout Hpre Hattrs Hdir Hid.
  unfold GetQuotaIDInFileAttr. rewrite Hrun, Herr, Hout.
  assert (Hsplit : Go.Split (Go.FormatUint id ++ " " ++ attrs ++ " " ++ dir)%string " "
                   = [Go.FormatUint id; attrs; dir]).
  { change (" " ++ attrs ++ " " ++ dir)%string
      with (String " " (attrs ++ String " " dir)%string).
    rewrite Split_first.
    - rewrite Split_first.
      + rewrite Split_single; [reflexivity|].
        intros Hin. apply Contains_byte in Hin. congruence.
      + intros Hin. apply Contains_byte in Hin. congruence.
    - intros Hin. now apply FormatUint_digits in Hin. }
  rewrite find_attr_first; [|exact Hpre|].
  - rewrite Hsplit. cbn [nth]. rewrite Atoi_FormatUint by lia.
    cbn [fst]. f_equal. unfold Go.uint32_of_int.
    rewrite Z.mod_small by lia. apply N2Z.id.
  - unfold line_names. rewrite Hsplit. cbn [length nth].
    now rewrite String.eqb_refl.
Qed.

End ReaderFacts.

(** A directory with a space in its name: the line lsattr prints for it
    is not recognised. *)
Lemma GetQuotaIDInFileAttr_path_with_space_witness :
  (GetQuotaIDInFileAttr Scenario.pouch "/data/my c1" Scenario.init).1 = 0%N.
Proof.
  apply (GetQuotaIDInFileAttr_path_with_space Scenario.pouch "/data/my c1"
           Scenario.init).
  left. reflexivity.
Defined.

(** lsattr lists /data/c0 and then /data/c1 with the tag 16777256. *)
Lemma GetQuotaIDInFileAttr_reads_back_witness :
  let E := Scenario.env Scenario.pouch_mtab Scenario.dev42 ext4FS
             Scenario.lsattr_two Scenario.any_dir 107374182400 in
  GetQuotaIDInFileAttr E "/data/c1" Scenario.init
  = (16777256%N, mkSt tt (mkDriver ∅ ∅ 0) [["lsattr"; "-p"; "/data"]]).
Proof.
  cbv zeta.
  apply (GetQuotaIDInFileAttr_reads_back
           (Scenario.env Scenario.pouch_mtab Scenario.dev42 ext4FS
              Scenario.lsattr_two Scenario.any_dir 107374182400)
           "/data/c1" Scenario.init
           (Scenario.lsattr_two ["lsattr"; "-p"; "/data"])
           (mkSt tt (mkDriver ∅ ∅ 0) [["lsattr"; "-p"; "/data"]])
           16777256%N "--------------e---P"
           ["16777300 --------------e---P /data/c0"] []).
  - reflexivity.
  - reflexivity.
  - vm_compute. reflexivity.
  - repeat constructor.
  - reflexivity.
  - reflexivity.
  - reflexivity.
Defined.

(** ** The annotation conversion *)

Section ConvertFacts.

Import ApiPlugin.

Context {ThrottleDevice : Type}.
Variable K : Keys.
Variable sliceThrottleDeviceString : list (option ThrottleDevice) -> string.

Lemma set_if_write cond key value m :
  set_if cond key value m
  = apply_write m (key, if cond then Some value else None).
Proof. now destruct cond. Qed.

Lemma set_ptr_write p key m :
  set_ptr p key m = apply_write m (key, of_ptr p).
Proof.
  destruct p as [i|]; [|reflexivity].
  unfold set_ptr, of_ptr, of_int. apply set_if_write.
Qed.

(** The function is its table, applied from the first line to the last. *)
Lemma convert_as_writes (rw : ResourcesWrapper ThrottleDevice) m :
  convertResourceWrapToAnnotation K sliceThrottleDeviceString rw m
  = fold_left apply_write (writes K sliceThrottleDeviceString rw) m.
Proof.
  unfold convertResourceWrapToAnnotation. cbv zeta.
  rewrite !set_if_write, !set_ptr_write. reflexivity.
Qed.

(** After a list of writes a key holds what the last write under that key
    wrote, or what it held before when there is none. *)
Lemma lookup_writes ws : forall (m : gmap string string) key,
  fold_left apply_write ws m !! key
  = match last_write ws key with
    | Some v => Some v
    | None => m !! key
    end.
Proof.
  induction ws as [|[k v] ws IH]; intros m key; [reflexivity|].
  cbn [fold_left last_write]. rewrite IH.
  destruct (last_write ws key); [reflexivity|].
  unfold apply_write. simpl.
  destruct (String.eqb_spec k key) as [->|Hne].
  - destruct v; [apply lookup_insert_eq|reflexivity].
  - destruct v; [now apply lookup_insert_ne|reflexivity].
Qed.

Lemma last_write_not_written ws key :
  ~ In key (map fst ws) -> last_write ws key = None.
Proof.
  induction ws as [|[k v] ws IH]; intros Hnot; [reflexivity|].
  simpl. rewrite IH by (intros Hin; apply Hnot; now right).
  destruct (String.eqb_spec k key) as [->|Hne]; [|reflexivity].
  exfalso. apply Hnot. now left.
Qed.

Lemma last_write_distinct ws key v :
  List.NoDup (map fst ws) -> In (key, v) ws -> last_write ws key = v.
Proof.
  induction ws as [|[k u] ws IH]; intros Hnd Hin; [destruct Hin|].
  inversion Hnd as [|? ? Hk Hrest]; subst.
  destruct Hin as [[= -> ->]|Hin].
  - simpl. rewrite last_write_not_written by exact Hk.
    now rewrite String.eqb_refl.
  - simpl. rewrite (IH Hrest Hin).
    destruct v; [reflexivity|].
    destruct (String.eqb_spec k key) as [->|Hne]; [|reflexivity].
    exfalso. apply Hk. apply in_map_iff. now exists (key, None).
Qed.

(** X20: the conversion only adds and overwrites. No annotation is
    removed: a key that was in the map is in the map afterwards. And an
    annotation whose key is none of the keys of the function keeps its
    value. *)
Theorem convert_keeps_annotations (rw : ResourcesWrapper ThrottleDevice) m key :
  (is_Some (m !! key) ->
   is_Some (convertResourceWrapToAnnotation K sliceThrottleDeviceString rw m !! key))
  /\ (~ In key (written_keys K sliceThrottleDeviceString rw) ->
      convertResourceWrapToAnnotation K sliceThrottleDeviceString rw m !! key
      = m !! key).
Proof.
  rewrite convert_as_writes, lookup_writes. split.
  - intros Hsome. now destruct (last_write _ key).
  - intros Hnot. unfold written_keys in Hnot.
    now rewrite last_write_not_written.
Qed.

(** X21: a request that sets no field changes nothing. When every string
    field is empty, every integer field is 0, every pointer field is nil
    or points to 0, and every list is empty, the map is returned as it
    was. *)
Theorem convert_unset_request (rw : ResourcesWrapper ThrottleDevice) m :
  Forall (fun w => w.2 = None) (writes K sliceThrottleDeviceString rw) ->
  convertResourceWrapToAnnotation K sliceThrottleDeviceString rw m = m.
Proof.
  rewrite convert_as_writes.
  generalize (writes K sliceThrottleDeviceString rw). intros ws Hall.
  revert m. induction Hall as [|[k v] ws Hv _ IH]; intros m; [reflexivity|].
  simpl in Hv. subst v. apply IH.
Qed.

(** X22: with pairwise distinct annotation keys, every key of the
    function holds, after the conversion, the value of its field when the
    field is set, and the value it held before when the field is not set
    (an annotation already given is kept, not cleared). *)
Theorem convert_distinct_keys (rw : ResourcesWrapper ThrottleDevice) m key v :
  List.NoDup (written_keys K sliceThrottleDeviceString rw) ->
  In (key, v) (writes K sliceThrottleDeviceString rw) ->
  convertResourceWrapToAnnotation K sliceThrottleDeviceString rw m !! key
  = match v with
    | Some x => Some x
    | None => m !! key
    end.
Proof.
  intros Hnd Hin. rewrite convert_as_writes, lookup_writes.
  now rewrite (last_write_distinct _ key v Hnd Hin).
Qed.

(** X23: converting the same request twice is converting it once. *)
Theorem convert_idempotent (rw : ResourcesWrapper ThrottleDevice) m :
  convertResourceWrapToAnnotation K sliceThrottleDeviceString rw
    (convertResourceWrapToAnnotation K sliceThrottleDeviceString rw m)
  = convertResourceWrapToAnnotation K sliceThrottleDeviceString rw m.
Proof.
  apply map_eq. intros key.
  rewrite !convert_as_writes, !lookup_writes.
  now destruct (last_write _ key).
Qed.

End ConvertFacts.

(** A request without any field set, one pointer pointing to 0. *)
Lemma convert_unset_request_witness :
  ApiPlugin.convertResourceWrapToAnnotation ApiPlugin.sample_keys
    ApiPlugin.sample_devices
    (ApiPlugin.mkResourcesWrapper unit "" "" "" 0 0 0 0 0 None (Some 0%Z) None 0
       "" "" "" 0 0 0 [] 0 [] [] [] [] [] [] [] "" "")
    {[ "k01" := "0-3" ]}
  = {[ "k01" := "0-3" ]}.
Proof.
  apply (convert_unset_request ApiPlugin.sample_keys ApiPlugin.sample_devices).
  vm_compute. repeat constructor.
Defined.

(** The sample request: the cpuset annotation is overwritten, the
    annotation of a field that is not set is kept. *)
Lemma convert_distinct_keys_witness :
  ApiPlugin.convertResourceWrapToAnnotation ApiPlugin.sample_keys
    ApiPlugin.sample_devices ApiPlugin.sample_request
    {[ "k01" := "0-3"; "k02" := "java" ]} !! "k02"
  = match @None string with
    | Some x => Some x
    | None => ({[ "k01" := "0-3"; "k02" := "java" ]} : gmap string string) !! "k02"
    end.
Proof.
  apply (convert_distinct_keys ApiPlugin.sample_keys ApiPlugin.sample_devices
           ApiPlugin.sample_request _ "k02" None).
  - vm_compute. repeat constructor; simpl; intuition discriminate.
  - vm_compute. tauto.
Defined.

(** The sample request on a map that holds an annotation of the plugin
    and one of somebody else. *)
Lemma convert_keeps_annotations_witness :
  let m : gmap string string := {[ "k02" := "java"; "owner" := "ops" ]} in
  (is_Some (m !! "owner") ->
   is_Some (ApiPlugin.convertResourceWrapToAnnotation ApiPlugin.sample_keys
              ApiPlugin.sample_devices ApiPlugin.sample_request m !! "owner"))
  /\ (~ In "owner" (ApiPlugin.written_keys ApiPlugin.sample_keys
                      ApiPlugin.sample_devices ApiPlugin.sample_request) ->
      ApiPlugin.convertResourceWrapToAnnotation ApiPlugin.sample_keys
        ApiPlugin.sample_devices ApiPlugin.sample_request m !! "owner"
      = m !! "owner").
Proof.
  cbv zeta.
  apply (convert_keeps_annotations ApiPlugin.sample_keys ApiPlugin.sample_devices
           ApiPlugin.sample_request _ "owner").
Defined.

(** The scenario of the specification: one call of EnforceQuota on a
    fresh driver. *)
Lemma EnforceQuota_footprint_witness :
  let r := EnforceQuota Scenario.pouch "/data/c1" Scenario.init in
  (exists cmds, trace r.2 = trace Scenario.init ++ cmds
                /\ forallb is_enablement_cmd cmds = true
                /\ length cmds <= 2)
  /\ quotaIDs (driver r.2) = quotaIDs (driver Scenario.init)
  /\ lastID (driver r.2) = lastID (driver Scenario.init)
  /\ (forall d, d <> (getDevID Scenario.pouch "/data/c1" (world Scenario.init)).1 ->
        mountPoints (driver r.2) !! d = mountPoints (driver Scenario.init) !! d)
  /\ (forall m,
        mountPoints (driver Scenario.init)
          !! (getDevID Scenario.pouch "/data/c1" (world Scenario.init)).1 = Some m ->
        mountPoints (driver r.2)
          !! (getDevID Scenario.pouch "/data/c1" (world Scenario.init)).1 = Some m).
Proof.
  apply (EnforceQuota_footprint Scenario.pouch "/data/c1" Scenario.init).
Defined.
